(** * vscode-wpilib: preferences registry and C++ code deployers

    A shallow embedding of [PreferencesAPI] (the per-folder preferences
    registry) and of [cpp/debugdeploy.ts] (the debug, deploy and simulate
    code deployers and their composition root), with the properties of
    the design document stated and proved over it.

    Conventions.
    - A run of a deployer is modelled as a sequential computation: an
      [await] is a call whose answer comes from the collaborator.
    - The callback the registry runs on a folder event is modelled step
      by step, from one [await] to the next, so that the callbacks of
      two folder events can overlap.
    - Collaborators (build runner, file reader, pickers, launchers) are
      the fields of a class [Host]; every call to one of them is
      recorded, with its answer, in a trace of [Event]s.
    - A JavaScript object has an identity; [===] on objects compares
      identities, which are natural numbers here. *)

From Stdlib Require Import List String Ascii Bool Arith Lia ZArith DecimalString Permutation.
Import ListNotations.
Open Scope string_scope.
Open Scope list_scope.

(** ** Values of the host editor *)

(** [vscode.Uri]: an object, compared by identity with [===]. *)
Record Uri := { uri_ref : nat; fsPath : string }.

(** [vscode.WorkspaceFolder]. *)
Record WorkspaceFolder := { uri : Uri; folder_name : string; folder_index : nat }.

(** [a === b] on two [Uri] objects. *)
Definition uri_same (a b : Uri) : bool := Nat.eqb (uri_ref a) (uri_ref b).

(** ** JavaScript values that occur in launch configurations *)

Inductive JsValue :=
| JUndefined
| JBoolean (b : bool)
| JString (s : string)
| JStringSet (elements : list string)
| JFolder (w : WorkspaceFolder).

(** An object literal: its properties in the order they are written. *)
Definition JsObject := list (string * JsValue).

Definition hasOwnProperty (o : JsObject) (k : string) : bool :=
  existsb (fun kv => String.eqb (fst kv) k) o.

Definition getProperty (o : JsObject) (k : string) : JsValue :=
  match find (fun kv => String.eqb (fst kv) k) o with
  | Some kv => snd kv
  | None => JUndefined
  end.

(** [x!] applied to an optional boolean: no check is made at run time. *)
Definition of_optional_boolean (b : option bool) : JsValue :=
  match b with
  | Some v => JBoolean v
  | None => JUndefined
  end.

(** ** Calls to collaborators *)

(** The three classes that implement [ICodeDeployer]; an instance holds
    nothing but the registry it reads. *)
Inductive ICodeDeployer :=
| NewDebugCodeDeployer
| NewDeployCodeDeployer
| NewSimulateCodeDeployer.

(** A call to a collaborator, with the answer it gave where there is
    one. A dismissed picker answers [None]; an answered one, the labels
    of the picked items. *)
Inductive Event :=
| GradleRun (command cwd : string) (w : WorkspaceFolder) (online : bool) (exitCode : Z)
| ReadFile (path : string) (content : option string)
| ShowQuickPick (labels : list (option string)) (placeHolder : string) (canPickMany : bool)
    (picked : option (list (option string)))
| ShowWorkspaceFolderPick (picked : option WorkspaceFolder)
| ShowInformationMessage (message : string)
| StartDebugging (config : JsObject)
| StartUnixSimulation (config : JsObject)
| StartWindowsSimulation (config : JsObject)
| ConsoleLog (value : Z)
| AddLanguageChoice (language : string)
| RegisterCodeDeploy (deployer : ICodeDeployer)
| RegisterCodeDebug (deployer : ICodeDeployer)
| RegisterCodeSimulate (deployer : ICodeDeployer).

Inductive Error :=
| TypeError      (* property access on undefined *)
| ReadError.     (* readFileAsync rejected *)

Inductive Outcome (A : Type) :=
| Returned (a : A)
| Thrown (e : Error).
Arguments Returned {A} a.
Arguments Thrown {A} e.

(** A computation: the collaborator calls it made, and how it ended. *)
Definition M (A : Type) : Type := (list Event * Outcome A)%type.

Definition ret {A} (a : A) : M A := ([], Returned a).

Definition bind {A B} (m : M A) (f : A -> M B) : M B :=
  match m with
  | (t, Returned a) => let (t', r) := f a in (t ++ t', r)
  | (t, Thrown e) => (t, Thrown e)
  end.

Definition throw {A} (e : Error) : M A := ([], Thrown e).

Definition call {A} (e : Event) (answer : A) : M A := ([e], Returned answer).

Definition trace {A} (m : M A) : list Event := fst m.
Definition outcome {A} (m : M A) : Outcome A := snd m.

Declare Scope js_scope.
Delimit Scope js_scope with js.
Notation "'let*' x := c 'in' k" := (bind c (fun x => k))
  (at level 10, x name, c at level 100, k at level 200) : js_scope.
Notation "c ;; k" := (bind c (fun _ => k))
  (at level 100, k at level 200, right associativity) : js_scope.

(** ** The preferences registry *)

Module PreferencesAPI.

(** Modelled from the spec: the class [Preferences] of [./preferences] is
    not among the sources. A store is an object with a back-reference to
    the workspace folder it was created for. *)
Record Preferences := { pref_ref : nat; workspace : WorkspaceFolder }.

(** Modelled from the spec: [Preferences.Create(w)] allocates a new
    store for [w]; [next] is the next unused object identity. *)
Definition Preferences_Create (w : WorkspaceFolder) (next : nat) : Preferences * nat :=
  ({| pref_ref := next; workspace := w |}, S next).

Record IPreferencesChangedPair :=
  { preference : Preferences; pair_workspace : WorkspaceFolder }.

Inductive Disposable :=
| DEmitter
| DFolderListener
| DStore (p : Preferences).

(** The registry object together with what the outside can observe of
    it: the events fired on [preferencesEmitter], the [dispose()] calls
    received by stores, and the allocator of object identities. *)
Record State := {
  preferences : list Preferences;
  disposables : list Disposable;
  fired : list (list IPreferencesChangedPair);
  disposed : list nat;
  next_ref : nat
}.

Definition getPreferences (s : State) (w : WorkspaceFolder) : option Preferences :=
  match find (fun p => uri_same (uri (workspace p)) (uri w)) (preferences s) with
  | Some p => Some p
  | None => nth_error (preferences s) 0
  end.

Section Picker.

(** The answer of [vscode.window.showWorkspaceFolderPick()]. *)
Variable showWorkspaceFolderPick : option WorkspaceFolder.

Definition getFirstOrSelectedWorkspace (workspaceFolders : option (list WorkspaceFolder))
  : M (option WorkspaceFolder) :=
  match workspaceFolders with
  | None => ret None
  | Some wp =>
      if (1 <? List.length wp)%nat then
        (let* res := call (ShowWorkspaceFolderPick showWorkspaceFolderPick) showWorkspaceFolderPick in
         match res with
         | Some r => ret (Some r)
         | None => ret None
         end)%js
      else if (List.length wp =? 1)%nat then ret (nth_error wp 0)
      else ret None
  end.

End Picker.

(** One round of the loops [for (const w of ...) { p = await Create(w); ... }]. *)
Definition create_step (acc : list Preferences * list IPreferencesChangedPair * nat)
  (w : WorkspaceFolder) : list Preferences * list IPreferencesChangedPair * nat :=
  let '(prefs, pairArr, next) := acc in
  let '(p, next') := Preferences_Create w next in
  (prefs ++ [p], pairArr ++ [{| preference := p; pair_workspace := w |}], next').

(** The callback registered on [onDidChangeWorkspaceFolders] when it
    runs from its first line to its last with no other callback in
    between ([run_serial] below relates it to the steps of the
    callback); [wp] is [vscode.workspace.workspaceFolders] at that time. *)
Definition onDidChangeWorkspaceFolders (wp : option (list WorkspaceFolder)) (s : State) : State :=
  let disposed' := disposed s ++ map pref_ref (preferences s) in
  match wp with
  | None =>
      {| preferences := preferences s;
         disposables := disposables s;
         fired := fired s;
         disposed := disposed';
         next_ref := next_ref s |}
  | Some wp =>
      let '(prefs, pairArr, next') := fold_left create_step wp ([], [], next_ref s) in
      {| preferences := prefs;
         disposables := disposables s ++ map DStore prefs;
         fired := fired s ++ [pairArr];
         disposed := disposed';
         next_ref := next' |}
  end.

(** [Create()] followed by [asyncInitialize()], starting from [next]. *)
Definition asyncInitialize (workspaces : option (list WorkspaceFolder)) (next : nat) : State :=
  let '(prefs, _, next') :=
    match workspaces with
    | Some ws => fold_left create_step ws ([], [], next)
    | None => ([], [], next)
    end in
  {| preferences := prefs;
     disposables := [DEmitter; DFolderListener] ++ map DStore prefs;
     fired := [];
     disposed := [];
     next_ref := next' |}.

(** [dispose()]: the stores among the disposables receive [dispose()]. *)
Definition dispose (s : State) : State :=
  {| preferences := preferences s;
     disposables := disposables s;
     fired := fired s;
     disposed := disposed s ++
       flat_map (fun d => match d with DStore p => [pref_ref p] | _ => [] end) (disposables s);
     next_ref := next_ref s |}.

(** The registry after its creation and a sequence of folder events
    each of which is handled to the end before the next one arrives. *)
Definition after_events (workspaces : option (list WorkspaceFolder)) (next : nat)
  (events : list (option (list WorkspaceFolder))) : State :=
  fold_left (fun s wp => onDidChangeWorkspaceFolders wp s) events
    (asyncInitialize workspaces next).

(** *** The callback step by step

    The callback is asynchronous: it is suspended at every
    [await Preferences.Create(w)], and a later folder event may start
    another callback before it resumes. Between two suspensions a
    callback runs alone. On resuming it pushes to the array that
    [this.preferences] holds at that time. *)

(** A callback suspended at [await Preferences.Create(w)]: the folder
    [w], the folders of [wp] still to come, and its local [pairArr]. *)
Record Handler := {
  pending : WorkspaceFolder;
  remaining : list WorkspaceFolder;
  handler_pairArr : list IPreferencesChangedPair
}.

(** After the loop: [fire(pairArr)], then
    [this.disposables.push(...this.preferences)]. *)
Definition finish (pairArr : list IPreferencesChangedPair) (s : State) : State :=
  {| preferences := preferences s;
     disposables := disposables s ++ map DStore (preferences s);
     fired := fired s ++ [pairArr];
     disposed := disposed s;
     next_ref := next_ref s |}.

(** A folder event arrives: the callback runs up to its first [await],
    or to its end when there is none on its way. *)
Definition start (wp : option (list WorkspaceFolder)) (s : State) : State * option Handler :=
  let disposed' := disposed s ++ map pref_ref (preferences s) in
  match wp with
  | None =>
      ({| preferences := preferences s;
          disposables := disposables s;
          fired := fired s;
          disposed := disposed';
          next_ref := next_ref s |}, None)
  | Some wp =>
      let s' :=
        {| preferences := [];
           disposables := disposables s;
           fired := fired s;
           disposed := disposed';
           next_ref := next_ref s |} in
      match wp with
      | [] => (finish [] s', None)
      | w :: ws => (s', Some {| pending := w; remaining := ws; handler_pairArr := [] |})
      end
  end.

(** The awaited [Preferences.Create] resolves: the callback pushes the
    store and its pair and runs up to its next [await], or to its end. *)
Definition resume (h : Handler) (s : State) : State * option Handler :=
  let '(p, next') := Preferences_Create (pending h) (next_ref s) in
  let s' :=
    {| preferences := preferences s ++ [p];
       disposables := disposables s;
       fired := fired s;
       disposed := disposed s;
       next_ref := next' |} in
  let pairArr := handler_pairArr h ++ [{| preference := p; pair_workspace := pending h |}] in
  match remaining h with
  | [] => (finish pairArr s', None)
  | w :: ws => (s', Some {| pending := w; remaining := ws; handler_pairArr := pairArr |})
  end.

(** What the editor and the store factory can do next: deliver a folder
    event, or resolve the creation awaited by the [i]-th suspended
    callback. *)
Inductive Action :=
| FolderEvent (wp : option (list WorkspaceFolder))
| CreateResolved (i : nat).

(** The registry and the callbacks that are suspended, oldest first. *)
Definition Config : Type := (State * list Handler)%type.

Fixpoint resume_at (i : nat) (hs : list Handler) (s : State) : Config :=
  match hs with
  | [] => (s, [])
  | h :: hs' =>
      match i with
      | 0 =>
          let (s', oh) := resume h s in
          (s', match oh with Some h' => h' :: hs' | None => hs' end)
      | S i' =>
          let (s', hs'') := resume_at i' hs' s in
          (s', h :: hs'')
      end
  end.

Definition step (a : Action) (c : Config) : Config :=
  match a with
  | FolderEvent wp =>
      let (s', oh) := start wp (fst c) in
      (s', snd c ++ match oh with Some h => [h] | None => [] end)
  | CreateResolved i => resume_at i (snd c) (fst c)
  end.

Definition run (schedule : list Action) (c : Config) : Config :=
  fold_left (fun c a => step a c) schedule c.

(** A folder event whose callback runs to its end before anything else
    happens. *)
Definition serial (wp : option (list WorkspaceFolder)) : list Action :=
  FolderEvent wp
    :: repeat (CreateResolved 0)
         (match wp with Some ws => List.length ws | None => 0 end).

(** Folder events handled one after the other. *)
Definition serial_schedule (events : list (option (list WorkspaceFolder))) : list Action :=
  flat_map serial events.

(** The folder events of a schedule, in the order of their arrival. *)
Definition events_of (schedule : list Action) : list (option (list WorkspaceFolder)) :=
  flat_map (fun a => match a with FolderEvent wp => [wp] | CreateResolved _ => [] end)
    schedule.

(** The folder list a suspended callback is working through. *)
Definition handler_folders (h : Handler) : list WorkspaceFolder :=
  map pair_workspace (handler_pairArr h) ++ pending h :: remaining h.

End PreferencesAPI.

(** ** JavaScript and Node library functions used by the deployers *)

(** [new Set<string>(iterable)]: the distinct elements, in the order of
    their first occurrence. *)
Definition Set_add (s : list string) (x : string) : list string :=
  if existsb (String.eqb x) s then s else s ++ [x].

Definition Set_of (l : list string) : list string := fold_left Set_add l [].

(** [s.split(';')]. *)
Fixpoint split_semicolon_from (cur : string) (s : string) : list string :=
  match s with
  | EmptyString => [cur]
  | String c rest =>
      if Ascii.eqb c ";"%char then cur :: split_semicolon_from "" rest
      else split_semicolon_from (cur ++ String c "")%string rest
  end.

Definition split_semicolon (s : string) : list string := split_semicolon_from "" s.

(** The loop of [path.posix.dirname]: indices [i], [i-1], ..., [1] of
    [path] are examined; the answer is the index of the last separator
    that has a character other than a separator after it. *)
Fixpoint dirname_scan (i : nat) (path : string) (matchedSlash : bool) : option nat :=
  match i with
  | 0 => None
  | S i' =>
      match String.get i path with
      | Some c =>
          if Ascii.eqb c "/"%char then
            if matchedSlash then dirname_scan i' path true else Some i
          else dirname_scan i' path false
      | None => dirname_scan i' path false
      end
  end.

(** Node's [path.posix.dirname]. *)
Definition posix_dirname (path : string) : string :=
  if (String.length path =? 0)%nat then "."
  else
    let hasRoot :=
      match String.get 0 path with
      | Some c => Ascii.eqb c "/"%char
      | None => false
      end in
    match dirname_scan (String.length path - 1) path true with
    | None => if hasRoot then "/" else "."
    | Some e => if hasRoot && (e =? 1)%nat then "//" else substring 0 e path
    end.

(** The library search path both the debug and the simulate variant
    build from [sofiles]:
    [const set = new Set<string>(sofiles); let soPath = '';
     for (const p of set) soPath += path.dirname(p) + ';';
     soPath = soPath.substring(0, soPath.length - 1);] *)
Definition soPath (dirname : string -> string) (sofiles : list string) : string :=
  let set := Set_of sofiles in
  let soPath := fold_left (fun acc p => (acc ++ (dirname p ++ ";"))%string) set "" in
  substring 0 (String.length soPath - 1) soPath.

(** The property of the design document: every containing directory of
    a listed file occurs exactly once among the entries of the path. *)
Definition directory_level_dedup (dirname : string -> string) (sofiles : list string) : Prop :=
  forall f, In f sofiles ->
    count_occ string_dec (split_semicolon (soPath dirname sofiles)) (dirname f) = 1.

(** ** Build descriptors *)

Record ICppDebugInfo := { debugfile : string; artifact : string }.

(** [extensions] is what iterating the parsed value yields (the listed
    paths); an absent optional field is [None]. *)
Record ICppDebugCommand := {
  name : option string;
  extensions : option (list string);
  clang : option bool;
  launchfile : string;
  target : string;
  gdb : string;
  sysroot : option string;
  srcpaths : list string;
  headerpaths : list string;
  sofiles : list string;
  libsrcpaths : list string
}.

Record CppQuickPick (T : Type) := { debugInfo : T; label : option string }.
Arguments debugInfo {T} c.
Arguments label {T} c.

(** An item of the extension picker: [{ label: path.basename(e), path: e }]. *)
Record ExtensionItem := { ext_label : string; ext_path : string }.

(** The getters of [IPreferences] the deployers read. *)
Record IPreferences := {
  getCurrentLanguage : string;
  getOnline : bool;
  getStopSimulationOnEntry : bool
}.

(** What the deployers run against: the JavaScript runtime ([number]
    with its conversion to a string, Node's [path]), the host platform,
    the preferences registry behind its interface [IPreferencesAPI], and
    the answers of the collaborators. [readFileAsync] answers [None] when
    the read is rejected; the three [jsonc_parse_*] are [jsonc.parse]
    followed by the cast of the call site. *)
Class Host := {
  number : Type;
  Number_toString : number -> string;
  path_join : list string -> string;
  path_dirname : string -> string;
  path_basename : string -> string;
  path_delimiter : string;
  getIsWindows : bool;
  getPreferences : WorkspaceFolder -> IPreferences;
  gradleRun : string -> string -> WorkspaceFolder -> bool -> Z;
  readFileAsync : string -> option string;
  jsonc_parse_debuginfo : string -> list ICppDebugInfo;
  jsonc_parse_debugcommand : string -> ICppDebugCommand;
  jsonc_parse_desktopinfo : string -> list ICppDebugCommand;
  showQuickPick_artifact :
    list (CppQuickPick ICppDebugInfo) -> option (CppQuickPick ICppDebugInfo);
  showQuickPick_target :
    list (CppQuickPick ICppDebugCommand) -> option (CppQuickPick ICppDebugCommand);
  showQuickPick_extensions : list ExtensionItem -> option (list ExtensionItem)
}.

(** ** The code deployers *)

Section Awaited.

Context {host : Host}.

Definition await_gradleRun (command cwd : string) (w : WorkspaceFolder) (online : bool) : M Z :=
  let exitCode := gradleRun command cwd w online in
  call (GradleRun command cwd w online exitCode) exitCode.

Definition await_readFileAsync (path : string) : M string :=
  match readFileAsync path with
  | Some text => call (ReadFile path (Some text)) text
  | None => ([ReadFile path None], Thrown ReadError)
  end.

Definition await_showQuickPick_artifact (arr : list (CppQuickPick ICppDebugInfo))
  : M (option (CppQuickPick ICppDebugInfo)) :=
  let picked := showQuickPick_artifact arr in
  call (ShowQuickPick (map label arr) "Select an artifact" false
          (option_map (fun p => [label p]) picked)) picked.

Definition await_showQuickPick_target (arr : list (CppQuickPick ICppDebugCommand))
  : M (option (CppQuickPick ICppDebugCommand)) :=
  let picked := showQuickPick_target arr in
  call (ShowQuickPick (map label arr) "Select an artifact" false
          (option_map (fun p => [label p]) picked)) picked.

Definition await_showQuickPick_extensions (extList : list ExtensionItem)
  : M (option (list ExtensionItem)) :=
  let picked := showQuickPick_extensions extList in
  call (ShowQuickPick (map (fun i => Some (ext_label i)) extList) "Pick extensions to run" true
          (option_map (map (fun i => Some (ext_label i))) picked)) picked.

(** [getIsCurrentlyValid], the same in the three classes. *)
Definition getIsCurrentlyValid (workspace : WorkspaceFolder) : bool :=
  let prefs := getPreferences workspace in
  let currentLanguage := getCurrentLanguage prefs in
  String.eqb currentLanguage "none" || String.eqb currentLanguage "cpp".

End Awaited.

Module DebugCodeDeployer.
Section WithHost.
Context {host : Host}.
Local Open Scope js_scope.

(** Lines 84 to 117 of [runDeployer]: what follows the choice of the
    artifact. *)
Definition launch (workspace : WorkspaceFolder) (result : Z)
  (targetDebugInfo : option ICppDebugInfo) : M bool :=
  match targetDebugInfo with
  | None => throw TypeError
  | Some targetDebugInfo =>
      let debugPath :=
        path_join [fsPath (uri workspace); "build"; "debug"; debugfile targetDebugInfo] in
      let* targetReadInfo := await_readFileAsync debugPath in
      let targetInfoParsed := jsonc_parse_debugcommand targetReadInfo in
      let soPath := soPath path_dirname (sofiles targetInfoParsed) in
      let sysroot :=
        match sysroot targetInfoParsed with
        | Some s => s
        | None => ""
        end in
      let config : JsObject :=
        [ ("executablePath", JString (launchfile targetInfoParsed));
          ("gdbPath", JString (gdb targetInfoParsed));
          ("soLibPath", JString soPath);
          ("srcPaths", JStringSet (Set_of (srcpaths targetInfoParsed)));
          ("sysroot", JString sysroot);
          ("target", JString (target targetInfoParsed));
          ("workspace", JFolder workspace) ] in
      call (StartDebugging config) tt ;;
      call (ConsoleLog result) tt ;;
      ret true
  end.

Definition runDeployer (teamNumber : number) (workspace : WorkspaceFolder) : M bool :=
  let command := ("deploy -PdebugMode -PteamNumber=" ++ Number_toString teamNumber)%string in
  let online := getOnline (getPreferences workspace) in
  let* result := await_gradleRun command (fsPath (uri workspace)) workspace online in
  if negb (result =? 0)%Z then ret false
  else
    let* debugInfoText :=
      await_readFileAsync
        (path_join [fsPath (uri workspace); "build"; "debug"; "debuginfo.json"]) in
    let parsedDebugInfo := jsonc_parse_debuginfo debugInfoText in
    let targetDebugInfo := nth_error parsedDebugInfo 0 in
    if (1 <? List.length parsedDebugInfo)%nat then
      let arr :=
        map (fun i => {| debugInfo := i; label := Some (artifact i) |}) parsedDebugInfo in
      let* picked := await_showQuickPick_artifact arr in
      match picked with
      | None =>
          call (ShowInformationMessage "Artifact cancelled") tt ;;
          ret false
      | Some picked => launch workspace result (Some (debugInfo picked))
      end
    else launch workspace result targetDebugInfo.

Definition getDisplayName : string := "cpp".
Definition getDescription : string := "C++ Debugging".

End WithHost.
End DebugCodeDeployer.

Module DeployCodeDeployer.
Section WithHost.
Context {host : Host}.
Local Open Scope js_scope.

Definition runDeployer (teamNumber : number) (workspace : WorkspaceFolder) : M bool :=
  let command := ("deploy -PteamNumber=" ++ Number_toString teamNumber)%string in
  let online := getOnline (getPreferences workspace) in
  let* result := await_gradleRun command (fsPath (uri workspace)) workspace online in
  if negb (result =? 0)%Z then ret false
  else
    call (ConsoleLog result) tt ;;
    ret true.

Definition getDisplayName : string := "cpp".
Definition getDescription : string := "C++ Deployment".

End WithHost.
End DeployCodeDeployer.

Module SimulateCodeDeployer.
Section WithHost.
Context {host : Host}.
Local Open Scope js_scope.

(** Lines 196 to 252 of [runDeployer]: what follows the choice of the
    simulation target. *)
Definition launch (workspace : WorkspaceFolder)
  (targetSimulateInfo : option ICppDebugCommand) : M bool :=
  match targetSimulateInfo with
  | None => throw TypeError
  | Some targetSimulateInfo =>
      match extensions targetSimulateInfo with
      | None => throw TypeError
      | Some targetExtensions =>
          let* extensions :=
            if (0 <? List.length targetExtensions)%nat then
              let extList :=
                map (fun e => {| ext_label := path_basename e; ext_path := e |})
                    targetExtensions in
              let* quickPick := await_showQuickPick_extensions extList in
              match quickPick with
              | Some quickPick =>
                  ret (fold_left
                         (fun acc qp => ((acc ++ ext_path qp) ++ path_delimiter)%string)
                         quickPick ""%string)
              | None => ret ""%string
              end
            else ret ""%string in
          if negb getIsWindows then
            let soPath := soPath path_dirname (sofiles targetSimulateInfo) in
            let config : JsObject :=
              [ ("clang", of_optional_boolean (clang targetSimulateInfo));
                ("executablePath", JString (launchfile targetSimulateInfo));
                ("extensions", JString extensions);
                ("soLibPath", JString soPath);
                ("srcPaths", JStringSet (Set_of (srcpaths targetSimulateInfo)));
                ("stopAtEntry", JBoolean (getStopSimulationOnEntry (getPreferences workspace)));
                ("workspace", JFolder workspace) ] in
            call (StartUnixSimulation config) tt ;;
            ret true
          else
            let config : JsObject :=
              [ ("extensions", JString extensions);
                ("launchfile", JString (launchfile targetSimulateInfo));
                ("stopAtEntry", JBoolean (getStopSimulationOnEntry (getPreferences workspace)));
                ("workspace", JFolder workspace) ] in
            call (StartWindowsSimulation config) tt ;;
            ret true
      end
  end.

Definition runDeployer (_ : number) (workspace : WorkspaceFolder) : M bool :=
  let command := "simulateExternalCpp" in
  let online := getOnline (getPreferences workspace) in
  let* result := await_gradleRun command (fsPath (uri workspace)) workspace online in
  if negb (result =? 0)%Z then ret false
  else
    let* simulateInfo :=
      await_readFileAsync
        (path_join [fsPath (uri workspace); "build"; "debug"; "desktopinfo.json"]) in
    let parsedSimulateInfo := jsonc_parse_desktopinfo simulateInfo in
    let targetSimulateInfo := nth_error parsedSimulateInfo 0 in
    if (1 <? List.length parsedSimulateInfo)%nat then
      let arr := map (fun i => {| debugInfo := i; label := name i |}) parsedSimulateInfo in
      let* picked := await_showQuickPick_target arr in
      match picked with
      | None =>
          call (ShowInformationMessage "Artifact cancelled") tt ;;
          ret false
      | Some picked => launch workspace (Some (debugInfo picked))
      end
    else launch workspace targetSimulateInfo.

Definition getDisplayName : string := "cpp".
Definition getDescription : string := "C++ Simulation".

End WithHost.
End SimulateCodeDeployer.

(** ** The composition root *)

Module DebugDeploy.

Record DebugDeploy := {
  debugDeployer : ICodeDeployer;
  deployDeployer : ICodeDeployer;
  simulator : ICodeDeployer
}.

Local Open Scope js_scope.

(** [new DebugDeploy(debugDeployApi, preferences, allowDebug)]: the calls
    received by [debugDeployApi] are recorded in the trace. *)
Definition constructor (allowDebug : bool) : M DebugDeploy :=
  call (AddLanguageChoice "cpp") tt ;;
  let this :=
    {| debugDeployer := NewDebugCodeDeployer;
       deployDeployer := NewDeployCodeDeployer;
       simulator := NewSimulateCodeDeployer |} in
  call (RegisterCodeDeploy (deployDeployer this)) tt ;;
  (if allowDebug then
     call (RegisterCodeDebug (debugDeployer this)) tt ;;
     call (RegisterCodeSimulate (simulator this)) tt
   else ret tt) ;;
  ret this.

Definition dispose (this : DebugDeploy) : M unit := ret tt.

End DebugDeploy.

(** [runDeployer] of a registered deployer. *)
Definition ICodeDeployer_runDeployer {host : Host} (d : ICodeDeployer)
  : number -> WorkspaceFolder -> M bool :=
  match d with
  | NewDebugCodeDeployer => DebugCodeDeployer.runDeployer
  | NewDeployCodeDeployer => DeployCodeDeployer.runDeployer
  | NewSimulateCodeDeployer => SimulateCodeDeployer.runDeployer
  end.

Definition ICodeDeployer_getDescription (d : ICodeDeployer) : string :=
  match d with
  | NewDebugCodeDeployer => DebugCodeDeployer.getDescription
  | NewDeployCodeDeployer => DeployCodeDeployer.getDescription
  | NewSimulateCodeDeployer => SimulateCodeDeployer.getDescription
  end.

(** ** A concrete host, for running the model *)

(** The decimal notation JavaScript gives an integer-valued number. *)
Definition Z_toString (z : Z) : string := NilEmpty.string_of_int (Z.to_int z).

(** [path.posix.join] on segments that need no normalisation. *)
Definition join_plain (segments : list string) : string := String.concat "/" segments.

(** The loop of [path.posix.basename]: indices [i-1], ..., [0]. *)
Fixpoint basename_scan (i : nat) (path : string) (end_ : option nat) : nat * option nat :=
  match i with
  | 0 => (0, end_)
  | S i' =>
      match String.get i' path with
      | Some c =>
          if Ascii.eqb c "/"%char then
            match end_ with
            | Some _ => (i, end_)
            | None => basename_scan i' path None
            end
          else
            basename_scan i' path (match end_ with None => Some i | Some _ => end_ end)
      | None => basename_scan i' path end_
      end
  end.

Definition posix_basename (path : string) : string :=
  match basename_scan (String.length path) path None with
  | (_, None) => ""
  | (start, Some e) => substring start (e - start) path
  end.

(** A host whose collaborators answer as scripted: the build exits with
    [exit], every file can be read, the descriptor files hold
    [artifacts], [command] and [targets], and the pickers answer with
    the item at the given position, or are dismissed. *)
Definition scripted_host (windows : bool) (exit : Z) (online : bool)
  (artifacts : list ICppDebugInfo) (command : ICppDebugCommand)
  (targets : list ICppDebugCommand)
  (pickArtifact pickTarget : option nat) (pickExtensions : bool) : Host :=
  {| number := Z;
     Number_toString := Z_toString;
     path_join := join_plain;
     path_dirname := posix_dirname;
     path_basename := posix_basename;
     path_delimiter := if windows then ";" else ":";
     getIsWindows := windows;
     getPreferences := fun _ =>
       {| getCurrentLanguage := "cpp"; getOnline := online; getStopSimulationOnEntry := false |};
     gradleRun := fun _ _ _ _ => exit;
     readFileAsync := fun path => Some path;
     jsonc_parse_debuginfo := fun _ => artifacts;
     jsonc_parse_debugcommand := fun _ => command;
     jsonc_parse_desktopinfo := fun _ => targets;
     showQuickPick_artifact := fun arr =>
       match pickArtifact with Some k => nth_error arr k | None => None end;
     showQuickPick_target := fun arr =>
       match pickTarget with Some k => nth_error arr k | None => None end;
     showQuickPick_extensions := fun extList =>
       if pickExtensions then Some extList else None |}.

Definition folder_r : WorkspaceFolder :=
  {| uri := {| uri_ref := 1; fsPath := "/r" |}; folder_name := "r"; folder_index := 0 |}.

Definition folder_q : WorkspaceFolder :=
  {| uri := {| uri_ref := 2; fsPath := "/q" |}; folder_name := "q"; folder_index := 1 |}.

Definition frc_command : ICppDebugCommand :=
  {| name := Some "frcUserProgram";
     extensions := Some ["/ext/libhalsim_ds.so"; "/ext/libhalsim_gui.so"];
     clang := Some false;
     launchfile := "/r/build/frcUserProgram";
     target := "10.9.0.2:8349";
     gdb := "/tc/bin/arm-gdb";
     sysroot := None;
     srcpaths := ["/r/src"; "/r/src"];
     headerpaths := ["/r/include"];
     sofiles := ["/a/x.so"; "/a/y.so"; "/b/z.so"];
     libsrcpaths := [] |}.

Definition frc_artifacts : list ICppDebugInfo :=
  [ {| debugfile := "frcUserProgram.json"; artifact := "frcUserProgram" |};
    {| debugfile := "vision.json"; artifact := "vision" |} ].

(** ** Auxiliary definitions for the statements *)

(** The stores a rebuild over [ws] creates when [next] is the next
    unused identity: one per folder, in order. *)
Fixpoint created (ws : list WorkspaceFolder) (next : nat) : list PreferencesAPI.Preferences :=
  match ws with
  | [] => []
  | w :: ws' =>
      {| PreferencesAPI.pref_ref := next; PreferencesAPI.workspace := w |}
        :: created ws' (S next)
  end.

(** The pair announcing a store. *)
Definition pair_of (p : PreferencesAPI.Preferences) : PreferencesAPI.IPreferencesChangedPair :=
  {| PreferencesAPI.preference := p;
     PreferencesAPI.pair_workspace := PreferencesAPI.workspace p |}.

(** Every store held has an identity from [lo] up to, and not
    including, [next_ref s]. *)
Definition refs_within (lo : nat) (s : PreferencesAPI.State) : Prop :=
  (lo <= PreferencesAPI.next_ref s)%nat /\
  (forall p, In p (PreferencesAPI.preferences s) ->
     (lo <= PreferencesAPI.pref_ref p < PreferencesAPI.next_ref s)%nat).

(** Folder events each of which is handled to the end before the next
    one arrives ([run_serial_schedule] below). *)
Definition handle_all (events : list (option (list WorkspaceFolder)))
  (s : PreferencesAPI.State) : PreferencesAPI.State :=
  fold_left (fun s wp => PreferencesAPI.onDidChangeWorkspaceFolders wp s) events s.

Definition is_launcher (e : Event) : bool :=
  match e with
  | StartDebugging _ | StartUnixSimulation _ | StartWindowsSimulation _ => true
  | _ => false
  end.

Definition is_ReadFile (e : Event) : bool :=
  match e with
  | ReadFile _ _ => true
  | _ => false
  end.

Definition is_AddLanguageChoice (e : Event) : bool :=
  match e with
  | AddLanguageChoice _ => true
  | _ => false
  end.

(** The folder lists of the events whose list is defined, in order. *)
Definition defined_lists (events : list (option (list WorkspaceFolder)))
  : list (list WorkspaceFolder) :=
  flat_map (fun wp => match wp with Some ws => [ws] | None => [] end) events.


(** The build command of each variant. *)
Definition build_command {host : Host} (d : ICodeDeployer) (teamNumber : number) : string :=
  match d with
  | NewDebugCodeDeployer =>
      ("deploy -PdebugMode -PteamNumber=" ++ Number_toString teamNumber)%string
  | NewDeployCodeDeployer => ("deploy -PteamNumber=" ++ Number_toString teamNumber)%string
  | NewSimulateCodeDeployer => "simulateExternalCpp"
  end.

(** The launcher of the simulate variant on the host platform. *)
Definition simulation_launcher {host : Host} : JsObject -> Event :=
  if getIsWindows then StartWindowsSimulation else StartUnixSimulation.

Definition is_GradleRun (e : Event) : bool :=
  match e with
  | GradleRun _ _ _ _ _ => true
  | _ => false
  end.

Definition is_ShowQuickPick (e : Event) : bool :=
  match e with
  | ShowQuickPick _ _ _ _ => true
  | _ => false
  end.

Definition is_ConsoleLog (e : Event) : bool :=
  match e with
  | ConsoleLog _ => true
  | _ => false
  end.

(** No character of [s] is a semicolon. *)
Fixpoint no_semicolon (s : string) : bool :=
  match s with
  | EmptyString => true
  | String c rest => negb (Ascii.eqb c ";"%char) && no_semicolon rest
  end.

(** The index file the debug and the simulate variant read after the
    build. *)
Definition index_file (d : ICodeDeployer) : string :=
  match d with
  | NewSimulateCodeDeployer => "desktopinfo.json"
  | _ => "debuginfo.json"
  end.

(** A picker that allows several items: the extensions picker. *)
Definition is_extensions_picker (e : Event) : bool :=
  match e with
  | ShowQuickPick _ _ canPickMany _ => canPickMany
  | _ => false
  end.

(** The folder lists of the events fired so far and of the callbacks
    that are suspended. *)
Definition folders_view (c : PreferencesAPI.Config) : list (list WorkspaceFolder) :=
  map (map PreferencesAPI.pair_workspace) (PreferencesAPI.fired (fst c))
  ++ map PreferencesAPI.handler_folders (snd c).

(** In every pair fired or collected so far, the store is one created
    for the folder of the pair. *)
Definition pairs_consistent (c : PreferencesAPI.Config) : Prop :=
  (forall pairArr pair,
     In pairArr (PreferencesAPI.fired (fst c)) -> In pair pairArr ->
     PreferencesAPI.workspace (PreferencesAPI.preference pair)
     = PreferencesAPI.pair_workspace pair) /\
  (forall h pair,
     In h (snd c) -> In pair (PreferencesAPI.handler_pairArr h) ->
     PreferencesAPI.workspace (PreferencesAPI.preference pair)
     = PreferencesAPI.pair_workspace pair).

(** With no callback suspended, every store held is among the
    disposables. *)
Definition held_are_disposable (c : PreferencesAPI.Config) : Prop :=
  snd c = [] ->
  forall p, In p (PreferencesAPI.preferences (fst c)) ->
    In (PreferencesAPI.DStore p) (PreferencesAPI.disposables (fst c)).

(** ** Tactics for runs of the deployers *)

Ltac unfold_run :=
  unfold DebugCodeDeployer.runDeployer, DebugCodeDeployer.launch,
         DeployCodeDeployer.runDeployer,
         SimulateCodeDeployer.runDeployer, SimulateCodeDeployer.launch,
         await_gradleRun, await_readFileAsync, await_showQuickPick_artifact,
         await_showQuickPick_target, await_showQuickPick_extensions,
         call, bind, ret, throw, trace, outcome.

(** One case distinction on the answer of a collaborator. *)
Ltac case_step :=
  match goal with
  | |- context [match ?x with _ => _ end] =>
      lazymatch x with
      | context [match _ with _ => _ end] => fail
      | _ => destruct x eqn:?
      end
  end.

Ltac absurd_case :=
  match goal with
  | H : false = true |- _ => discriminate H
  | H : true = false |- _ => discriminate H
  end.

Ltac run_cases :=
  unfold_run;
  repeat (case_step; cbn [fst snd app negb option_map] in *; try absurd_case).

(** Membership in a trace that is written out. *)
Ltac in_trace H :=
  cbn [In] in H;
  repeat (destruct H as [H|H]; [try discriminate H|]); try contradiction.

(** A case that belongs to the other platform. *)
Ltac wrong_platform Hwin :=
  exfalso; rewrite Hwin in *; cbn [negb] in *; absurd_case.

(** The launcher calls among the members of a trace that is written out. *)
Ltac launcher_in_trace He Hl :=
  cbn [In] in He;
  repeat (destruct He as [He|He]; [subst; try discriminate Hl|]);
  try contradiction.

Ltac no_launcher :=
  let e := fresh "e" in let He := fresh "He" in
  intros e He; cbn [In] in He;
  repeat (destruct He as [<-|He]; [reflexivity|]); contradiction.

(** A predicate that is false on every member of a trace that is
    written out. *)
Ltac none_in_trace :=
  let e := fresh "e" in let He := fresh "He" in
  intros e He; cbn [In] in He;
  repeat (destruct He as [<-|He]; [reflexivity|]); contradiction.

(** The trace that is written out, as its front and its last call. *)
Ltac split_last :=
  match goal with
  | |- exists b, ?l = b ++ [_] /\ _ => exists (removelast l); cbn [removelast]
  | |- exists b c, ?l = b ++ [_] /\ _ => exists (removelast l); cbn [removelast]
  end.

(** ** Running the model on small inputs *)

Example posix_dirname_file : posix_dirname "/a/x.so" = "/a".
Proof. reflexivity. Qed.

Example posix_dirname_root : posix_dirname "/x.so" = "/".
Proof. reflexivity. Qed.

Example posix_dirname_relative : posix_dirname "x.so" = ".".
Proof. reflexivity. Qed.

Example posix_dirname_trailing : posix_dirname "/a/b/" = "/a".
Proof. reflexivity. Qed.

Example posix_basename_file : posix_basename "/ext/libhalsim_ds.so" = "libhalsim_ds.so".
Proof. reflexivity. Qed.

Example Z_toString_900 : Z_toString 900 = "900".
Proof. reflexivity. Qed.

Example Set_of_keeps_first : Set_of ["b"; "a"; "b"; "c"; "a"] = ["b"; "a"; "c"].
Proof. reflexivity. Qed.

Example soPath_empty : soPath posix_dirname [] = "".
Proof. reflexivity. Qed.

Example soPath_same_file_twice : soPath posix_dirname ["/a/x.so"; "/a/x.so"] = "/a".
Proof. reflexivity. Qed.

Example deploy_900 :
  DeployCodeDeployer.runDeployer
    (host := scripted_host false 0 true [] frc_command [] None None false) 900%Z folder_r
  = ([GradleRun "deploy -PteamNumber=900" "/r" folder_r true 0; ConsoleLog 0], Returned true).
Proof. reflexivity. Qed.

Example debug_single_artifact :
  trace (DebugCodeDeployer.runDeployer
    (host := scripted_host false 0 true [ {| debugfile := "one.json"; artifact := "one" |} ]
               frc_command [] None None false) 900%Z folder_r)
  = [ GradleRun "deploy -PdebugMode -PteamNumber=900" "/r" folder_r true 0;
      ReadFile "/r/build/debug/debuginfo.json" (Some "/r/build/debug/debuginfo.json");
      ReadFile "/r/build/debug/one.json" (Some "/r/build/debug/one.json");
      StartDebugging
        [ ("executablePath", JString "/r/build/frcUserProgram");
          ("gdbPath", JString "/tc/bin/arm-gdb");
          ("soLibPath", JString "/a;/a;/b");
          ("srcPaths", JStringSet ["/r/src"]);
          ("sysroot", JString "");
          ("target", JString "10.9.0.2:8349");
          ("workspace", JFolder folder_r) ];
      ConsoleLog 0 ].
Proof. reflexivity. Qed.

Example simulate_unix_all_extensions :
  SimulateCodeDeployer.runDeployer
    (host := scripted_host false 0 false [] frc_command [frc_command] None None true)
    0%Z folder_r
  = ([ GradleRun "simulateExternalCpp" "/r" folder_r false 0;
       ReadFile "/r/build/debug/desktopinfo.json" (Some "/r/build/debug/desktopinfo.json");
       ShowQuickPick [Some "libhalsim_ds.so"; Some "libhalsim_gui.so"]
         "Pick extensions to run" true
         (Some [Some "libhalsim_ds.so"; Some "libhalsim_gui.so"]);
       StartUnixSimulation
         [ ("clang", JBoolean false);
           ("executablePath", JString "/r/build/frcUserProgram");
           ("extensions", JString "/ext/libhalsim_ds.so:/ext/libhalsim_gui.so:");
           ("soLibPath", JString "/a;/a;/b");
           ("srcPaths", JStringSet ["/r/src"]);
           ("stopAtEntry", JBoolean false);
           ("workspace", JFolder folder_r) ] ],
     Returned true).
Proof. reflexivity. Qed.

(** ** The preferences registry: lookup and folder picking *)

Section RegistryFacts.
Import PreferencesAPI.

Lemma getPreferences_held s w p :
  getPreferences s w = Some p -> In p (preferences s).
Proof.
  unfold getPreferences.
  destruct (find _ (preferences s)) eqn:Hfind; intros H.
  - injection H as <-. apply find_some in Hfind. tauto.
  - now apply nth_error_In in H.
Qed.

Lemma fold_create_step ws : forall prefs pairArr next,
  fold_left create_step ws (prefs, pairArr, next)
  = (prefs ++ created ws next, pairArr ++ map pair_of (created ws next),
     next + List.length ws).
Proof.
  induction ws as [|w ws IH]; intros prefs pairArr next; simpl.
  - now rewrite !app_nil_r, Nat.add_0_r.
  - rewrite IH, <- !app_assoc. simpl. now rewrite Nat.add_succ_r.
Qed.

Lemma created_workspace ws : forall next, map workspace (created ws next) = ws.
Proof.
  induction ws as [|w ws IH]; intros next; simpl; [reflexivity|now rewrite IH].
Qed.

Lemma created_refs ws : forall next p,
  In p (created ws next) -> next <= pref_ref p < next + List.length ws.
Proof.
  induction ws as [|w ws IH]; intros next p; simpl; [tauto|].
  intros [<-|Hin]; simpl; [lia|].
  apply IH in Hin. lia.
Qed.

Lemma onDidChange_defined ws s :
  onDidChangeWorkspaceFolders (Some ws) s =
  {| preferences := created ws (next_ref s);
     disposables := disposables s ++ map DStore (created ws (next_ref s));
     fired := fired s ++ [map pair_of (created ws (next_ref s))];
     disposed := disposed s ++ map pref_ref (preferences s);
     next_ref := next_ref s + List.length ws |}.
Proof.
  unfold onDidChangeWorkspaceFolders. now rewrite fold_create_step.
Qed.

Lemma refs_within_rebuild ws s lo :
  lo <= next_ref s -> refs_within lo (onDidChangeWorkspaceFolders (Some ws) s).
Proof.
  intros Hlo. rewrite onDidChange_defined. split; simpl; [lia|].
  intros p Hin. apply created_refs in Hin. lia.
Qed.

Lemma refs_within_step wp s lo :
  refs_within lo s -> refs_within lo (onDidChangeWorkspaceFolders wp s).
Proof.
  intros [Hlo Hall]. destruct wp as [ws|].
  - now apply refs_within_rebuild.
  - split; simpl; assumption.
Qed.

Lemma refs_within_handle_all events : forall s lo,
  refs_within lo s -> refs_within lo (handle_all events s).
Proof.
  induction events as [|wp events IH]; intros s lo H; simpl; [assumption|].
  apply IH. now apply refs_within_step.
Qed.

Lemma refs_within_initial workspaces next :
  refs_within next (asyncInitialize workspaces next).
Proof.
  unfold asyncInitialize. destruct workspaces as [ws|].
  - rewrite fold_create_step. split; simpl; [lia|].
    intros p Hin. apply created_refs in Hin. lia.
  - split; simpl; [lia|tauto].
Qed.

Lemma refs_within_reachable workspaces next events :
  refs_within next (after_events workspaces next events).
Proof.
  unfold after_events. apply (refs_within_handle_all events), refs_within_initial.
Qed.

End RegistryFacts.

(** ** The steps of the folder-event callback *)

Section StepFacts.
Import PreferencesAPI.

Lemma run_app (l1 l2 : list Action) (c : Config) :
  run (l1 ++ l2) c = run l2 (run l1 c).
Proof. unfold run. apply fold_left_app. Qed.

Lemma resume_all (rem : list WorkspaceFolder) : forall pend s pairs,
  run (repeat (CreateResolved 0) (S (List.length rem)))
      (s, [{| pending := pend; remaining := rem; handler_pairArr := pairs |}])
  = (let '(prefs, pairArr, next') :=
       fold_left create_step (pend :: rem) (preferences s, pairs, next_ref s) in
     {| preferences := prefs;
        disposables := disposables s ++ map DStore prefs;
        fired := fired s ++ [pairArr];
        disposed := disposed s;
        next_ref := next' |}, []).
Proof.
  induction rem as [|w rem IH]; intros pend s pairs.
  - reflexivity.
  - change (run (repeat (CreateResolved 0) (S (List.length (w :: rem))))
              (s, [{| pending := pend; remaining := w :: rem; handler_pairArr := pairs |}]))
      with (run (repeat (CreateResolved 0) (S (List.length rem)))
              ({| preferences := preferences s ++ [{| pref_ref := next_ref s; workspace := pend |}];
                  disposables := disposables s;
                  fired := fired s;
                  disposed := disposed s;
                  next_ref := S (next_ref s) |},
               [{| pending := w; remaining := rem;
                   handler_pairArr :=
                     pairs ++ [{| preference := {| pref_ref := next_ref s; workspace := pend |};
                                  pair_workspace := pend |}] |}])).
    rewrite IH. reflexivity.
Qed.

(** A callback that nothing interrupts does what
    [onDidChangeWorkspaceFolders] says. *)
Lemma run_serial (wp : option (list WorkspaceFolder)) (s : State) :
  run (serial wp) (s, []) = (onDidChangeWorkspaceFolders wp s, []).
Proof.
  destruct wp as [[|w ws]|]; try reflexivity.
  change (run (serial (Some (w :: ws))) (s, []))
    with (run (repeat (CreateResolved 0) (S (List.length ws)))
            ({| preferences := [];
                disposables := disposables s;
                fired := fired s;
                disposed := disposed s ++ map pref_ref (preferences s);
                next_ref := next_ref s |},
             [{| pending := w; remaining := ws; handler_pairArr := [] |}])).
  rewrite resume_all. reflexivity.
Qed.

Lemma run_serial_schedule (events : list (option (list WorkspaceFolder))) : forall s,
  run (serial_schedule events) (s, []) = (handle_all events s, []).
Proof.
  induction events as [|wp events IH]; intros s; [reflexivity|].
  change (serial_schedule (wp :: events)) with (serial wp ++ serial_schedule events).
  rewrite run_app, run_serial. apply IH.
Qed.

Lemma after_events_serial workspaces next events :
  run (serial_schedule events) (asyncInitialize workspaces next, [])
  = (after_events workspaces next events, []).
Proof. apply run_serial_schedule. Qed.

(** What one resumption does to the registry. *)
Lemma resume_state (h : Handler) (s : State) :
  let p := {| pref_ref := next_ref s; workspace := pending h |} in
  preferences (fst (resume h s)) = preferences s ++ [p] /\
  next_ref (fst (resume h s)) = S (next_ref s) /\
  disposed (fst (resume h s)) = disposed s /\
  match snd (resume h s) with
  | Some h' =>
      disposables (fst (resume h s)) = disposables s /\
      fired (fst (resume h s)) = fired s /\
      handler_pairArr h' = handler_pairArr h ++ [pair_of p] /\
      pending h' :: remaining h' = remaining h
  | None =>
      disposables (fst (resume h s)) = disposables s ++ map DStore (preferences s ++ [p]) /\
      fired (fst (resume h s)) = fired s ++ [handler_pairArr h ++ [pair_of p]] /\
      remaining h = []
  end.
Proof.
  unfold resume, Preferences_Create. destruct (remaining h); simpl; repeat split.
Qed.

(** What the arrival of a folder event does to the registry. *)
Lemma start_state (wp : option (list WorkspaceFolder)) (s : State) :
  disposed (fst (start wp s)) = disposed s ++ map pref_ref (preferences s) /\
  next_ref (fst (start wp s)) = next_ref s /\
  match wp with
  | None =>
      preferences (fst (start wp s)) = preferences s /\
      disposables (fst (start wp s)) = disposables s /\
      fired (fst (start wp s)) = fired s /\
      snd (start wp s) = None
  | Some [] =>
      preferences (fst (start wp s)) = [] /\
      disposables (fst (start wp s)) = disposables s /\
      fired (fst (start wp s)) = fired s ++ [[]] /\
      snd (start wp s) = None
  | Some (w :: ws) =>
      preferences (fst (start wp s)) = [] /\
      disposables (fst (start wp s)) = disposables s /\
      fired (fst (start wp s)) = fired s /\
      snd (start wp s) = Some {| pending := w; remaining := ws; handler_pairArr := [] |}
  end.
Proof.
  destruct wp as [[|w ws]|]; simpl; repeat split; apply app_nil_r.
Qed.

Lemma resume_refs (h : Handler) (s : State) (lo : nat) :
  refs_within lo s -> refs_within lo (fst (resume h s)).
Proof.
  intros [Hlo Hall]. destruct (resume_state h s) as (Hp & Hn & _).
  split; [rewrite Hn; lia|].
  intros p. rewrite Hp, Hn, in_app_iff. intros [Hin|[<-|[]]].
  - apply Hall in Hin. lia.
  - simpl. lia.
Qed.

Lemma resume_at_refs (hs : list Handler) : forall i s lo,
  refs_within lo s -> refs_within lo (fst (resume_at i hs s)).
Proof.
  induction hs as [|h hs IH]; intros i s lo Hs; destruct i as [|i]; simpl;
    try assumption.
  - pose proof (resume_refs h s lo Hs) as H. destruct (resume h s). exact H.
  - pose proof (IH i s lo Hs) as H. destruct (resume_at i hs s). exact H.
Qed.

Lemma start_refs wp s lo : refs_within lo s -> refs_within lo (fst (start wp s)).
Proof.
  intros [Hlo Hall]. destruct (start_state wp s) as (_ & Hn & H).
  split; [rewrite Hn; assumption|]. rewrite Hn.
  destruct wp as [[|w ws]|]; destruct H as (Hp & _); rewrite Hp;
    first [exact Hall | intros ? []].
Qed.

Lemma step_refs (a : Action) (c : Config) (lo : nat) :
  refs_within lo (fst c) -> refs_within lo (fst (step a c)).
Proof.
  intros Hc. destruct a as [wp|i]; simpl.
  - pose proof (start_refs wp (fst c) lo Hc) as H. destruct (start wp (fst c)). exact H.
  - now apply resume_at_refs.
Qed.

Lemma run_refs (schedule : list Action) : forall c lo,
  refs_within lo (fst c) -> refs_within lo (fst (run schedule c)).
Proof.
  induction schedule as [|a schedule IH]; intros c lo Hc; [assumption|].
  apply (IH (step a c)). now apply step_refs.
Qed.

End StepFacts.

Lemma find_first {A} (f : A -> bool) (l : list A) :
  (exists q, In q l /\ f q = true) ->
  exists p before after,
    find f l = Some p /\ f p = true /\ l = before ++ p :: after /\
    (forall q, In q before -> f q = false).
Proof.
  induction l as [|a l IH]; intros [q [Hin Hq]]; simpl in *; [tauto|].
  destruct (f a) eqn:Ha.
  - exists a, [], l. repeat split; auto. intros ? [].
  - destruct Hin as [->|Hin]; [congruence|].
    destruct IH as (p & before & after & Hfind & Hp & Hsplit & Hbefore);
      [now exists q|].
    exists p, (a :: before), after. repeat split; auto.
    + now rewrite Hsplit.
    + intros x [<-|Hx]; auto.
Qed.

Section RegistryClaims.
Import PreferencesAPI.

(** C3. [getPreferences] always produces a result, with no error case:
    when some held store belongs to a folder with the identity of the
    argument, the result is such a store (the first one in the
    sequence); when none does, the result is the first store of the
    sequence; and on an empty sequence the result is absent. *)
Theorem getPreferences_total (s : State) (w : WorkspaceFolder) :
  ((exists q, In q (preferences s) /\ uri_same (uri (workspace q)) (uri w) = true) ->
     exists p before after,
       getPreferences s w = Some p /\
       uri_same (uri (workspace p)) (uri w) = true /\
       preferences s = before ++ p :: after /\
       (forall q, In q before -> uri_same (uri (workspace q)) (uri w) = false)) /\
  ((forall q, In q (preferences s) -> uri_same (uri (workspace q)) (uri w) = false) ->
     getPreferences s w = nth_error (preferences s) 0) /\
  (preferences s = [] -> getPreferences s w = None).
Proof.
  unfold getPreferences. repeat split.
  - intros Hex. apply find_first in Hex.
    destruct Hex as (p & before & after & Hfind & Hp & Hsplit & Hbefore).
    exists p, before, after. rewrite Hfind. auto.
  - intros Hnone. destruct (find _ (preferences s)) eqn:Hfind; [|reflexivity].
    apply find_some in Hfind. destruct Hfind as [Hin Hp].
    rewrite (Hnone _ Hin) in Hp. discriminate.
  - intros ->. reflexivity.
Qed.

(** C6. [getFirstOrSelectedWorkspace] returns nothing when no folder is
    open (the folder list is undefined or empty), the only folder when
    exactly one is open, and the answer of the picker (nothing when it
    is dismissed) when two or more are open; the picker is shown exactly
    once in the last case and not at all in the others. *)
Theorem getFirstOrSelectedWorkspace_branches
  (pick : option WorkspaceFolder) (workspaceFolders : option (list WorkspaceFolder)) :
  (workspaceFolders = None \/ workspaceFolders = Some [] ->
     getFirstOrSelectedWorkspace pick workspaceFolders = ([], Returned None)) /\
  (forall w, workspaceFolders = Some [w] ->
     getFirstOrSelectedWorkspace pick workspaceFolders = ([], Returned (Some w))) /\
  (forall wp, workspaceFolders = Some wp -> 2 <= List.length wp ->
     getFirstOrSelectedWorkspace pick workspaceFolders
     = ([ShowWorkspaceFolderPick pick], Returned pick)).
Proof.
  repeat split.
  - intros [-> | ->]; reflexivity.
  - intros w ->. reflexivity.
  - intros wp -> Hlen. unfold getFirstOrSelectedWorkspace.
    destruct (Nat.ltb_spec 1 (List.length wp)); [|lia].
    destruct pick; reflexivity.
Qed.

End RegistryClaims.

Section RebuildClaims.
Import PreferencesAPI.

(** C1, as the code has it. Take any history of folder events and
    resumed callbacks after which no callback is suspended, and a folder
    event whose callback then runs to its end before another folder
    event arrives. Every store held before receives [dispose()]. When
    the folder list is defined at that time (empty or not): the sequence
    is rebuilt from the whole list, one newly created store per folder
    and in order; exactly one change event is fired, with one (store,
    folder) pair per open folder; [getPreferences f] for every open
    folder [f] returns a store created in that rebuild, whose folder has
    the identity of [f]; and whatever happens later, overlapping
    callbacks included, no store held before the event is returned
    again. When the folder list is undefined, the callback stops after
    the disposal and fires no event. *)
Theorem folder_change_rebuild
  (workspaces : option (list WorkspaceFolder)) (next : nat)
  (schedule : list Action) (wp : option (list WorkspaceFolder)) :
  let c := run schedule (asyncInitialize workspaces next, []) in
  let s := fst c in
  let c' := run (serial wp) c in
  let s' := fst c' in
  snd c = [] ->
  (forall p, In p (preferences s) -> In (pref_ref p) (disposed s')) /\
  (wp = None -> fired s' = fired s) /\
  (forall ws, wp = Some ws ->
     snd c' = [] /\
     preferences s' = created ws (next_ref s) /\
     map workspace (preferences s') = ws /\
     (forall p q, In p (preferences s') -> In q (preferences s) -> pref_ref p <> pref_ref q) /\
     (exists pairArr,
        fired s' = fired s ++ [pairArr] /\
        map pair_workspace pairArr = ws /\
        map preference pairArr = preferences s') /\
     (forall f, In f ws ->
        exists p, getPreferences s' f = Some p /\ In p (created ws (next_ref s)) /\
                  uri_same (uri (workspace p)) (uri f) = true) /\
     (forall later f p q,
        getPreferences (fst (run later c')) f = Some p ->
        In q (preferences s) -> pref_ref p <> pref_ref q)).
Proof.
  intros c s c' s' Hquiet.
  assert (Hs : refs_within next s).
  { apply run_refs. apply refs_within_initial. }
  assert (Hc : c = (s, [])).
  { subst s. destruct c as [s0 hs]. simpl in *. now subst hs. }
  assert (Hc' : c' = (onDidChangeWorkspaceFolders wp s, [])).
  { subst c'. rewrite Hc. apply run_serial. }
  assert (Hs' : s' = onDidChangeWorkspaceFolders wp s).
  { subst s'. now rewrite Hc'. }
  clearbody s s' c'. clear Hc Hquiet c. subst s'.
  split; [|split].
  - intros p Hin. destruct wp; [rewrite onDidChange_defined|]; simpl;
      apply in_or_app; right; now apply in_map.
  - intros ->. reflexivity.
  - intros ws ->. split; [now rewrite Hc'|].
    assert (Hnew : refs_within (next_ref s) (onDidChangeWorkspaceFolders (Some ws) s))
      by now apply refs_within_rebuild.
    rewrite Hc'. rewrite onDidChange_defined in *.
    set (s' := {| preferences := created ws (next_ref s) |}) in *.
    repeat split.
    + apply created_workspace.
    + intros p q Hp Hq. apply created_refs in Hp. apply (proj2 Hs) in Hq. lia.
    + exists (map pair_of (created ws (next_ref s))). repeat split.
      * rewrite map_map. apply created_workspace.
      * rewrite map_map. apply map_id.
    + intros f Hf.
      destruct (find_first (fun p => uri_same (uri (workspace p)) (uri f)) (preferences s'))
        as (p & before & after & Hfind & Hp & Hsplit & _).
      * rewrite <- (created_workspace ws (next_ref s)) in Hf.
        apply in_map_iff in Hf. destruct Hf as (q & <- & Hq).
        exists q. split; [exact Hq|]. apply Nat.eqb_refl.
      * exists p. unfold getPreferences. rewrite Hfind. repeat split; auto.
        change (In p (preferences s')). rewrite Hsplit. apply in_or_app. right. now left.
    + intros later f p q Hget Hq.
      apply getPreferences_held in Hget.
      apply (run_refs later (s', [])) in Hnew.
      apply (proj2 Hnew) in Hget. apply (proj2 Hs) in Hq. lia.
Qed.

(** Two folder events whose callbacks overlapped, and then, with no
    callback suspended, an event whose callback runs alone. *)
Lemma folder_change_rebuild_witness :
  let c := run [FolderEvent (Some [folder_r; folder_q]); FolderEvent (Some [folder_q]);
                CreateResolved 1; CreateResolved 0; CreateResolved 0]
               (asyncInitialize (Some [folder_r]) 0, []) in
  let s' := fst (run (serial (Some [folder_r; folder_q])) c) in
  map workspace (preferences s') = [folder_r; folder_q] /\
  exists p, getPreferences s' folder_q = Some p /\
            In p (created [folder_r; folder_q] (next_ref (fst c))).
Proof.
  intros c s'.
  destruct (folder_change_rebuild (Some [folder_r]) 0
              [FolderEvent (Some [folder_r; folder_q]); FolderEvent (Some [folder_q]);
               CreateResolved 1; CreateResolved 0; CreateResolved 0]
              (Some [folder_r; folder_q]) eq_refl)
    as (_ & _ & H).
  destruct (H [folder_r; folder_q] eq_refl) as (_ & _ & Hmap & _ & _ & Hget & _).
  split; [exact Hmap|].
  destruct (Hget folder_q) as (p & Hp & Hin & _); [simpl; auto|].
  exists p. split; [exact Hp | exact Hin].
Defined.

(** C1 fails as stated in two ways. When the folder list is undefined at
    the time of the event, no change event is fired, and the store held
    before, which has received [dispose()], is still the one returned.
    When a second event over the same two folders arrives while the
    callback of the first is suspended at its first [await], the
    sequence ends up with four stores for two folders, and the store
    returned for a folder is not the one announced for it by the last
    change event. *)
Lemma folder_change_counterexample :
  (let s := asyncInitialize (Some [folder_r]) 0 in
   let s' := fst (run (serial None) (s, [])) in
   ~ (exists pairArr, fired s' = fired s ++ [pairArr]) /\
   exists p, getPreferences s' folder_r = Some p /\
             In p (preferences s) /\ In (pref_ref p) (disposed s')) /\
  (let c := run [FolderEvent (Some [folder_r; folder_q]);
                 FolderEvent (Some [folder_r; folder_q]);
                 CreateResolved 0; CreateResolved 1; CreateResolved 0; CreateResolved 0]
                (asyncInitialize (Some [folder_r]) 0, []) in
   snd c = [] /\
   map workspace (preferences (fst c)) = [folder_r; folder_r; folder_q; folder_q] /\
   exists p, getPreferences (fst c) folder_r = Some p /\
             ~ In p (map preference (last (fired (fst c)) []))).
Proof.
  split.
  - split.
    + intros [pairArr H]. vm_compute in H. discriminate.
    + eexists. vm_compute. repeat split; left; reflexivity.
  - split; [reflexivity|]. split; [reflexivity|].
    eexists. split; [reflexivity|].
    vm_compute. intros [H|[H|[]]]; discriminate H.
Qed.

End RebuildClaims.

(** Registry witnesses. *)

Lemma getPreferences_total_witness :
  exists p, PreferencesAPI.getPreferences
              (PreferencesAPI.asyncInitialize (Some [folder_r; folder_q]) 0) folder_q = Some p /\
            uri_same (uri (PreferencesAPI.workspace p)) (uri folder_q) = true.
Proof.
  destruct (getPreferences_total
              (PreferencesAPI.asyncInitialize (Some [folder_r; folder_q]) 0) folder_q)
    as (H & _ & _).
  destruct H as (p & before & after & Hget & Hp & _).
  - eexists. split; [right; left; reflexivity | reflexivity].
  - exists p. split; [exact Hget | exact Hp].
Defined.

Lemma getFirstOrSelectedWorkspace_branches_witness :
  PreferencesAPI.getFirstOrSelectedWorkspace None (Some [folder_r; folder_q])
  = ([ShowWorkspaceFolderPick None], Returned None).
Proof.
  destruct (getFirstOrSelectedWorkspace_branches None (Some [folder_r; folder_q]))
    as (_ & _ & H).
  apply (H [folder_r; folder_q] eq_refl). simpl. lia.
Defined.

(** ** The library search path *)

Section Strings.

Lemma append_nil_r (s : string) : (s ++ "")%string = s.
Proof. induction s as [|c s IH]; simpl; [reflexivity|now rewrite IH]. Qed.

Lemma append_assoc (a b c : string) : ((a ++ b) ++ c)%string = (a ++ (b ++ c))%string.
Proof. induction a as [|x a IH]; simpl; [reflexivity|now rewrite IH]. Qed.

Lemma length_append (a b : string) :
  String.length (a ++ b) = String.length a + String.length b.
Proof. induction a as [|x a IH]; simpl; [reflexivity|now rewrite IH]. Qed.

Lemma substring_prefix (a b : string) : substring 0 (String.length a) (a ++ b) = a.
Proof.
  induction a as [|x a IH]; simpl.
  - destruct b; reflexivity.
  - now rewrite IH.
Qed.

(** Dropping the last character of a string that ends in a separator. *)
Lemma drop_last_separator (a : string) :
  substring 0 (String.length (a ++ ";") - 1) (a ++ ";") = a.
Proof.
  rewrite length_append. simpl. rewrite Nat.add_sub. apply substring_prefix.
Qed.

End Strings.

Section SearchPath.

Variable dirname : string -> string.

Lemma soPath_loop (l : list string) : forall acc,
  fold_left (fun acc p => (acc ++ (dirname p ++ ";"))%string) l acc
  = (acc ++ String.concat "" (map (fun p => (dirname p ++ ";")%string) l))%string.
Proof.
  induction l as [|p l IH]; intros acc; simpl.
  - now rewrite append_nil_r.
  - rewrite IH. destruct l as [|p' l]; simpl.
    + now rewrite append_nil_r.
    + now rewrite !append_assoc.
Qed.

Lemma concat_trailing (l : list string) : l <> [] ->
  String.concat "" (map (fun p => (dirname p ++ ";")%string) l)
  = (String.concat ";" (map dirname l) ++ ";")%string.
Proof.
  induction l as [|p l IH]; intros Hne; [congruence|].
  destruct l as [|p' l]; [reflexivity|].
  change (String.concat "" (map (fun p => (dirname p ++ ";")%string) (p :: p' :: l)))
    with ((dirname p ++ ";") ++ ("" ++
            String.concat "" (map (fun p => (dirname p ++ ";")%string) (p' :: l))))%string.
  change (String.concat ";" (map dirname (p :: p' :: l)))
    with (dirname p ++ (";" ++ String.concat ";" (map dirname (p' :: l))))%string.
  rewrite IH by discriminate. simpl. now rewrite !append_assoc.
Qed.

Lemma soPath_joined (sofiles : list string) :
  soPath dirname sofiles = String.concat ";" (map dirname (Set_of sofiles)).
Proof.
  unfold soPath. rewrite soPath_loop. simpl.
  destruct (Set_of sofiles) as [|p l] eqn:Hset; [reflexivity|].
  rewrite concat_trailing by discriminate. apply drop_last_separator.
Qed.

End SearchPath.

Lemma existsb_eqb_In (x : string) (s : list string) :
  existsb (String.eqb x) s = true <-> In x s.
Proof.
  rewrite existsb_exists. split.
  - intros (y & Hy & Heq). apply String.eqb_eq in Heq. now subst.
  - intros Hin. exists x. split; [assumption|apply String.eqb_refl].
Qed.

Lemma Set_add_In (s : list string) (x y : string) :
  In y (Set_add s x) <-> In y s \/ y = x.
Proof.
  unfold Set_add. destruct (existsb (String.eqb x) s) eqn:Hex.
  - apply existsb_eqb_In in Hex. split; [tauto|]. intros [H| ->]; assumption.
  - rewrite in_app_iff. simpl. split; intros [H|H]; auto.
    + destruct H as [<-|[]]. now right.
Qed.

Lemma Set_add_NoDup (s : list string) (x : string) : NoDup s -> NoDup (Set_add s x).
Proof.
  intros Hs. unfold Set_add. destruct (existsb (String.eqb x) s) eqn:Hex; [assumption|].
  assert (Hnot : ~ In x s).
  { intros Hin. apply existsb_eqb_In in Hin. congruence. }
  clear Hex. induction Hs as [|a s Ha Hs IH]; simpl.
  - constructor; [intros []|constructor].
  - constructor.
    + rewrite in_app_iff. simpl. intros [H|[H|[]]]; [tauto|].
      subst. apply Hnot. now left.
    + apply IH. intros Hin. apply Hnot. now right.
Qed.

Lemma Set_fold_spec (l : list string) : forall acc,
  NoDup acc ->
  NoDup (fold_left Set_add l acc) /\
  forall y, In y (fold_left Set_add l acc) <-> In y acc \/ In y l.
Proof.
  induction l as [|x l IH]; intros acc Hacc; simpl.
  - split; [assumption|]. intros y. tauto.
  - destruct (IH (Set_add acc x) (Set_add_NoDup acc x Hacc)) as [Hnd Hin].
    split; [assumption|]. intros y. rewrite Hin, Set_add_In.
    split; intros H; intuition.
Qed.

(** C2, as the code has it. The duplicates are removed among the listed
    files, before the directories are taken: the path is the
    semicolon-joined list of the containing directories of the distinct
    listed files, in the order of their first occurrence, so that a
    directory occurs once for every distinct listed file it contains. *)
Theorem soPath_file_level_dedup (dirname : string -> string) (sofiles : list string) :
  NoDup (Set_of sofiles) /\
  (forall f, In f (Set_of sofiles) <-> In f sofiles) /\
  soPath dirname sofiles = String.concat ";" (map dirname (Set_of sofiles)) /\
  (forall d, count_occ string_dec (map dirname (Set_of sofiles)) d
             = List.length (filter (fun f => String.eqb (dirname f) d) (Set_of sofiles))).
Proof.
  destruct (Set_fold_spec sofiles [] (NoDup_nil _)) as [Hnd Hin].
  repeat split.
  - exact Hnd.
  - intros H. apply Hin in H. simpl in H. tauto.
  - intros H. apply Hin. now right.
  - apply soPath_joined.
  - intros d. induction (Set_of sofiles) as [|f l IH]; simpl; [reflexivity|].
    destruct (string_dec (dirname f) d) as [Heq|Hne].
    + apply String.eqb_eq in Heq. rewrite Heq. simpl. now rewrite IH.
    + apply String.eqb_neq in Hne. rewrite Hne. exact IH.
Qed.

(** C2 fails as stated on the example of the design document: two
    distinct files of [/a] put [/a] twice on the path. *)
Lemma soPath_directory_counterexample :
  soPath posix_dirname ["/a/x.so"; "/a/y.so"; "/b/z.so"] = "/a;/a;/b" /\
  ~ directory_level_dedup posix_dirname ["/a/x.so"; "/a/y.so"; "/b/z.so"].
Proof.
  split; [reflexivity|].
  intros H. specialize (H "/a/x.so" (or_introl eq_refl)).
  vm_compute in H. discriminate.
Qed.

(** ** Runs of the code deployers *)

(** C4. When the artifact picker is dismissed during a run of the debug
    variant, the run returns [false] and no launcher is invoked. When
    the extensions picker is dismissed during a run of the simulate
    variant, the run goes on, returns [true], and ends with the one call
    to the launcher of the platform, whose configuration has the empty
    string as [extensions]. *)
Theorem cancellation_semantics {host : Host} (t : number) (w : WorkspaceFolder) :
  (forall labels,
     In (ShowQuickPick labels "Select an artifact" false None)
        (trace (DebugCodeDeployer.runDeployer t w)) ->
     outcome (DebugCodeDeployer.runDeployer t w) = Returned false /\
     forall e, In e (trace (DebugCodeDeployer.runDeployer t w)) -> is_launcher e = false) /\
  (forall labels,
     In (ShowQuickPick labels "Pick extensions to run" true None)
        (trace (SimulateCodeDeployer.runDeployer t w)) ->
     outcome (SimulateCodeDeployer.runDeployer t w) = Returned true /\
     exists before config,
       trace (SimulateCodeDeployer.runDeployer t w)
       = before ++ [(if getIsWindows then StartWindowsSimulation else StartUnixSimulation) config] /\
       getProperty config "extensions" = JString "" /\
       forall e, In e before -> is_launcher e = false).
Proof.
  split; intros labels.
  - run_cases; intros H; in_trace H; (split; [reflexivity|no_launcher]).
  - run_cases; intros H; in_trace H.
    all: split; [reflexivity|].
    all: match goal with
         | |- exists b c, ?l = _ /\ _ => exists (removelast l)
         end; cbn [removelast]; eexists; (split; [reflexivity|]).
    all: split; [reflexivity|no_launcher].
Qed.

(** C5. A run of the simulate variant that returns [true] has invoked a
    launcher. On a host that is not Windows every launcher call of the
    run is a call to the Unix launcher, and its configuration has the
    properties [soLibPath] (a string) and [clang]; on Windows every
    launcher call is a call to the Windows launcher, and its
    configuration has neither property. On a host that is not Windows
    the two properties hold the search path derived from the [sofiles]
    of the chosen target and the [clang] value that target carries. *)
Theorem simulate_platform_branch {host : Host} (t : number) (w : WorkspaceFolder) :
  (outcome (SimulateCodeDeployer.runDeployer t w) = Returned true ->
     exists e, In e (trace (SimulateCodeDeployer.runDeployer t w)) /\ is_launcher e = true) /\
  (getIsWindows = false ->
     forall e, In e (trace (SimulateCodeDeployer.runDeployer t w)) -> is_launcher e = true ->
       exists config path,
         e = StartUnixSimulation config /\
         hasOwnProperty config "soLibPath" = true /\
         hasOwnProperty config "clang" = true /\
         getProperty config "soLibPath" = JString path) /\
  (getIsWindows = true ->
     forall e, In e (trace (SimulateCodeDeployer.runDeployer t w)) -> is_launcher e = true ->
       exists config,
         e = StartWindowsSimulation config /\
         hasOwnProperty config "soLibPath" = false /\
         hasOwnProperty config "clang" = false) /\
  (getIsWindows = false ->
     forall target e,
       In e (trace (SimulateCodeDeployer.launch w (Some target))) -> is_launcher e = true ->
       exists config,
         e = StartUnixSimulation config /\
         getProperty config "soLibPath" = JString (soPath path_dirname (sofiles target)) /\
         getProperty config "clang" = of_optional_boolean (clang target)).
Proof.
  repeat split.
  - run_cases; intros H; try discriminate H.
    all: match goal with
         | |- exists e, In e ?l /\ _ => exists (last l (ConsoleLog 0))
         end; cbn [last]; split;
         [cbn [In]; repeat (first [left; reflexivity | right]) | reflexivity].
  - intros Hwin. run_cases; try wrong_platform Hwin.
    all: intros e He Hl; launcher_in_trace He Hl.
    all: do 2 eexists; repeat split.
  - intros Hwin. run_cases; try wrong_platform Hwin.
    all: intros e He Hl; launcher_in_trace He Hl.
    all: eexists; repeat split.
  - intros Hwin target. run_cases; try wrong_platform Hwin.
    all: intros e He Hl; launcher_in_trace He Hl.
    all: eexists; repeat split.
Qed.

(** C7. For every team number and workspace, the deploy-only variant
    first calls the build runner with the command "deploy -PteamNumber="
    followed by the team number, in the directory of the workspace, with
    the online flag of the preferences of the workspace; it reads no
    file; on a non-zero exit code it returns [false] at once, and on a
    zero exit code it returns [true]. *)
Theorem deploy_only_run {host : Host} (t : number) (w : WorkspaceFolder) :
  let command := ("deploy -PteamNumber=" ++ Number_toString t)%string in
  let online := getOnline (getPreferences w) in
  let exitCode := gradleRun command (fsPath (uri w)) w online in
  let run := DeployCodeDeployer.runDeployer t w in
  (exists rest,
     trace run = GradleRun command (fsPath (uri w)) w online exitCode :: rest /\
     forall e, In e rest -> e = ConsoleLog exitCode) /\
  (forall e, In e (trace run) -> is_ReadFile e = false) /\
  (exitCode <> 0%Z ->
     run = ([GradleRun command (fsPath (uri w)) w online exitCode], Returned false)) /\
  (exitCode = 0%Z -> outcome run = Returned true).
Proof.
  intros command online exitCode run. subst run command online exitCode.
  repeat split.
  - run_cases; eexists; (split; [reflexivity|]); intros e He; in_trace He; congruence.
  - run_cases; intros e He; cbn [In] in He;
      repeat (destruct He as [<-|He]; [reflexivity|]); contradiction.
  - intros Hexit. run_cases; [reflexivity|].
    apply Bool.negb_false_iff, Z.eqb_eq in Heqb. contradiction.
  - intros Hexit. run_cases; [|reflexivity].
    rewrite Hexit in Heqb. discriminate Heqb.
Qed.

(** C8. Whatever the value of [allowDebug], the composition root adds
    the one language tag "cpp" and registers the deploy-only deployer;
    it registers the debug and the simulate deployers after that when
    [allowDebug] is true, and makes no further call when it is false;
    [dispose()] makes no call at all. *)
Theorem composition_root (allowDebug : bool) (this : DebugDeploy.DebugDeploy) :
  trace (DebugDeploy.constructor allowDebug)
  = [AddLanguageChoice "cpp"; RegisterCodeDeploy NewDeployCodeDeployer]
    ++ (if allowDebug
        then [RegisterCodeDebug NewDebugCodeDeployer;
              RegisterCodeSimulate NewSimulateCodeDeployer]
        else []) /\
  List.length (filter is_AddLanguageChoice (trace (DebugDeploy.constructor allowDebug))) = 1 /\
  DebugDeploy.dispose this = ([], Returned tt).
Proof.
  destruct allowDebug; repeat split.
Qed.

(** C9. After a successful build and a readable artifact index: when
    the parsed index is empty, its first entry is absent and the read of
    [debugfile] throws before any launcher is invoked; when it has at
    least one entry, the first entry is present, and the entry the run
    goes on with (the first one, or the one picked among several) is
    present whenever the run reaches the read of its [debugfile], which
    then names the file that is read next; the only run that goes on
    with no entry is the one whose picker was dismissed, and it returns
    [false]. *)
Theorem debug_artifact_access {host : Host} (t : number) (w : WorkspaceFolder)
  (text : string) :
  let command := ("deploy -PdebugMode -PteamNumber=" ++ Number_toString t)%string in
  let parsed := jsonc_parse_debuginfo text in
  let arr := map (fun i => {| debugInfo := i; label := Some (artifact i) |}) parsed in
  let chosen :=
    if (1 <? List.length parsed)%nat
    then option_map debugInfo (showQuickPick_artifact arr)
    else nth_error parsed 0 in
  let run := DebugCodeDeployer.runDeployer t w in
  gradleRun command (fsPath (uri w)) w (getOnline (getPreferences w)) = 0%Z ->
  readFileAsync (path_join [fsPath (uri w); "build"; "debug"; "debuginfo.json"]) = Some text ->
  (parsed = [] ->
     nth_error parsed 0 = None /\ chosen = None /\
     outcome run = Thrown TypeError /\
     forall e, In e (trace run) -> is_launcher e = false) /\
  (parsed <> [] ->
     (exists first, nth_error parsed 0 = Some first) /\
     outcome run <> Thrown TypeError /\
     match chosen with
     | Some entry =>
         exists content,
           In (ReadFile (path_join [fsPath (uri w); "build"; "debug"; debugfile entry]) content)
              (trace run)
     | None => outcome run = Returned false
     end).
Proof.
  intros command parsed arr chosen run Hexit Hread.
  subst run chosen arr parsed command. split.
  - intros Hnil. unfold_run. rewrite Hexit, Hread, Hnil. cbn.
    repeat split. no_launcher.
  - intros Hne. split.
    + destruct (jsonc_parse_debuginfo text) as [|first rest]; [congruence|].
      now exists first.
    + unfold_run. rewrite Hexit, Hread.
      destruct (jsonc_parse_debuginfo text) as [|first rest] eqn:Hparsed; [congruence|].
      cbn [negb Z.eqb fst snd app nth_error option_map].
      repeat (case_step; cbn [fst snd app negb option_map nth_error] in *; try absurd_case).
      all: split; [discriminate|].
      all: first [ reflexivity
                 | eexists; cbn [In]; repeat (first [left; reflexivity | right]) ].
Qed.

(** C10. The simulate variant does not read its team number: two runs
    that differ in the team number only make the same calls, starting
    with the build command "simulateExternalCpp", and end the same way. *)
Theorem simulate_ignores_team_number {host : Host} (t1 t2 : number) (w : WorkspaceFolder) :
  SimulateCodeDeployer.runDeployer t1 w = SimulateCodeDeployer.runDeployer t2 w /\
  exists exitCode rest,
    trace (SimulateCodeDeployer.runDeployer t1 w)
    = GradleRun "simulateExternalCpp" (fsPath (uri w)) w (getOnline (getPreferences w)) exitCode
        :: rest.
Proof.
  split; [reflexivity|].
  run_cases; do 2 eexists; reflexivity.
Qed.

(** ** The theorems at concrete runs *)

Lemma soPath_file_level_dedup_witness :
  In "/a/y.so" (Set_of ["/a/x.so"; "/a/y.so"; "/b/z.so"; "/a/x.so"]) /\
  soPath posix_dirname ["/a/x.so"; "/a/y.so"; "/b/z.so"; "/a/x.so"]
  = String.concat ";"
      (map posix_dirname (Set_of ["/a/x.so"; "/a/y.so"; "/b/z.so"; "/a/x.so"])).
Proof.
  destruct (soPath_file_level_dedup posix_dirname
              ["/a/x.so"; "/a/y.so"; "/b/z.so"; "/a/x.so"]) as (_ & Hin & Heq & _).
  split; [apply Hin; simpl; auto | exact Heq].
Defined.

(** Two artifacts and a dismissed artifact picker; one simulation target
    with two extensions and a dismissed extensions picker. *)
Lemma cancellation_semantics_witness :
  let host := scripted_host false 0 true frc_artifacts frc_command [frc_command]
                None None false in
  outcome (DebugCodeDeployer.runDeployer (host := host) 900%Z folder_r) = Returned false /\
  outcome (SimulateCodeDeployer.runDeployer (host := host) 900%Z folder_r) = Returned true.
Proof.
  intros host.
  destruct (cancellation_semantics (host := host) 900%Z folder_r) as [Hdebug Hsimulate].
  split.
  - apply (Hdebug [Some "frcUserProgram"; Some "vision"]).
    right. right. left. reflexivity.
  - apply (Hsimulate [Some "libhalsim_ds.so"; Some "libhalsim_gui.so"]).
    right. right. left. reflexivity.
Defined.

Lemma simulate_platform_branch_witness :
  let host := scripted_host false 0 true [] frc_command [frc_command] None None true in
  exists e,
    In e (trace (SimulateCodeDeployer.runDeployer (host := host) 900%Z folder_r)) /\
    is_launcher e = true.
Proof.
  intros host.
  apply (proj1 (simulate_platform_branch (host := host) 900%Z folder_r)).
  reflexivity.
Defined.

Lemma deploy_only_run_witness :
  let host := scripted_host false 0 true [] frc_command [] None None false in
  outcome (DeployCodeDeployer.runDeployer (host := host) 900%Z folder_r) = Returned true.
Proof.
  intros host.
  pose proof (deploy_only_run (host := host) 900%Z folder_r) as H.
  cbv zeta in H. destruct H as (_ & _ & _ & H).
  apply H. reflexivity.
Defined.

Lemma debug_artifact_access_witness :
  let host := scripted_host false 0 true frc_artifacts frc_command [] (Some 1) None false in
  outcome (DebugCodeDeployer.runDeployer (host := host) 900%Z folder_r) <> Thrown TypeError.
Proof.
  intros host.
  pose proof (debug_artifact_access (host := host) 900%Z folder_r
                "/r/build/debug/debuginfo.json" eq_refl eq_refl) as H.
  cbv zeta in H. destruct H as (_ & H).
  destruct H as (_ & H & _); [discriminate|exact H].
Defined.

(** ** Further properties of the preferences registry *)

Section RegistryLifecycle.
Import PreferencesAPI.

Lemma asyncInitialize_defined ws next :
  asyncInitialize (Some ws) next =
  {| preferences := created ws next;
     disposables := [DEmitter; DFolderListener] ++ map DStore (created ws next);
     fired := [];
     disposed := [];
     next_ref := next + List.length ws |}.
Proof.
  unfold asyncInitialize. now rewrite fold_create_step.
Qed.

Lemma created_pref_refs ws : forall next,
  map pref_ref (created ws next) = seq next (List.length ws).
Proof.
  induction ws as [|w ws IH]; intros next; simpl; [reflexivity|now rewrite IH].
Qed.




Lemma fired_handle_all events : forall s,
  map (map pair_workspace) (fired (handle_all events s))
  = map (map pair_workspace) (fired s) ++ defined_lists events.
Proof.
  induction events as [|wp events IH]; intros s; simpl.
  - now rewrite app_nil_r.
  - rewrite IH. destruct wp as [ws|].
    + rewrite onDidChange_defined. cbn [fired].
      rewrite map_app, <- app_assoc. cbn [map app defined_lists flat_map].
      now rewrite map_map, created_workspace.
    + reflexivity.
Qed.


(** The stores among the disposables. *)
Lemma store_refs_app (l1 l2 : list Disposable) :
  flat_map (fun d => match d with DStore p => [pref_ref p] | _ => [] end) (l1 ++ l2)
  = flat_map (fun d => match d with DStore p => [pref_ref p] | _ => [] end) l1
    ++ flat_map (fun d => match d with DStore p => [pref_ref p] | _ => [] end) l2.
Proof. apply flat_map_app. Qed.

Lemma store_refs_stores (ps : list Preferences) :
  flat_map (fun d => match d with DStore p => [pref_ref p] | _ => [] end) (map DStore ps)
  = map pref_ref ps.
Proof.
  induction ps as [|p ps IH]; simpl; [reflexivity|now rewrite IH].
Qed.

Lemma disposables_handle_all events : forall s lo,
  lo <= next_ref s ->
  flat_map (fun d => match d with DStore p => [pref_ref p] | _ => [] end) (disposables s)
  = seq lo (next_ref s - lo) ->
  lo <= next_ref (handle_all events s) /\
  flat_map (fun d => match d with DStore p => [pref_ref p] | _ => [] end)
    (disposables (handle_all events s))
  = seq lo (next_ref (handle_all events s) - lo).
Proof.
  induction events as [|wp events IH]; intros s lo Hlo Hs; simpl; [now split|].
  apply IH; destruct wp as [ws|]; try assumption.
  - rewrite onDidChange_defined. simpl. lia.
  - rewrite onDidChange_defined. simpl.
    rewrite store_refs_app, store_refs_stores, created_pref_refs, Hs.
    replace (next_ref s + List.length ws - lo) with ((next_ref s - lo) + List.length ws) by lia.
    rewrite seq_app. repeat f_equal. lia.
Qed.

Lemma disposables_reachable workspaces next events :
  flat_map (fun d => match d with DStore p => [pref_ref p] | _ => [] end)
    (disposables (after_events workspaces next events))
  = seq next (next_ref (after_events workspaces next events) - next).
Proof.
  unfold after_events. fold (handle_all events (asyncInitialize workspaces next)).
  apply disposables_handle_all.
  - apply refs_within_initial.
  - destruct workspaces as [ws|].
    + rewrite asyncInitialize_defined. simpl.
      rewrite store_refs_stores, created_pref_refs. f_equal. lia.
    + simpl. now rewrite Nat.sub_diag.
Qed.


(** X5. A folder event whose list is undefined changes no lookup, fires
    nothing and creates nothing, whatever the state; every store a
    lookup returns after it has received [dispose()]. *)
Theorem undefined_list_keeps_disposed_stores (s : State) (f : WorkspaceFolder) :
  let s' := onDidChangeWorkspaceFolders None s in
  getPreferences s' f = getPreferences s f /\
  preferences s' = preferences s /\
  fired s' = fired s /\
  next_ref s' = next_ref s /\
  (forall p, getPreferences s' f = Some p -> In (pref_ref p) (disposed s')).
Proof.
  intros s'. repeat split.
  intros p Hget. apply getPreferences_held in Hget.
  subst s'. simpl in *. apply in_or_app. right. now apply in_map.
Qed.

Lemma undefined_list_keeps_disposed_stores_witness :
  In 0 (disposed (onDidChangeWorkspaceFolders None (asyncInitialize (Some [folder_r]) 0))).
Proof.
  pose proof (undefined_list_keeps_disposed_stores
                (asyncInitialize (Some [folder_r]) 0) folder_q) as H.
  cbv zeta in H. destruct H as (_ & _ & _ & _ & H).
  apply (H {| pref_ref := 0; workspace := folder_r |}). reflexivity.
Defined.

End RegistryLifecycle.

Section StepInvariants.
Import PreferencesAPI.

Lemma resume_at_cases (hs : list Handler) : forall i s,
  resume_at i hs s = (s, hs) \/
  exists before h after,
    hs = before ++ h :: after /\
    resume_at i hs s
    = (fst (resume h s),
       before ++ match snd (resume h s) with Some h' => h' :: after | None => after end).
Proof.
  induction hs as [|h hs IH]; intros i s; destruct i as [|i]; simpl; try (now left).
  - right. exists [], h, hs. split; [reflexivity|]. now destruct (resume h s).
  - destruct (IH i s) as [Hsame|(before & h0 & after & Hhs & Hres)]; rewrite ?Hsame, ?Hres.
    + now left.
    + right. exists (h :: before), h0, after. split; [now rewrite Hhs|reflexivity].
Qed.

Lemma step_folder_event (wp : option (list WorkspaceFolder)) (c : Config) :
  step (FolderEvent wp) c
  = (fst (start wp (fst c)),
     snd c ++ match snd (start wp (fst c)) with Some h => [h] | None => [] end).
Proof. simpl. now destruct (start wp (fst c)). Qed.

(** Disposables and the record of [dispose()] calls only grow. *)
Lemma step_grows (a : Action) (c : Config) :
  (exists l, disposables (fst (step a c)) = disposables (fst c) ++ l) /\
  (exists k, disposed (fst (step a c)) = disposed (fst c) ++ k).
Proof.
  destruct a as [wp|i].
  - rewrite step_folder_event. cbn [fst].
    destruct (start_state wp (fst c)) as (Hd & _ & H). split.
    + exists []. rewrite app_nil_r.
      destruct wp as [[|w ws]|]; destruct H as (_ & H & _); exact H.
    + eexists. exact Hd.
  - simpl. destruct (resume_at_cases (snd c) i (fst c))
      as [Hsame|(before & h & after & _ & Hres)].
    + rewrite Hsame. split; exists []; now rewrite app_nil_r.
    + rewrite Hres. cbn [fst].
      destruct (resume_state h (fst c)) as (_ & _ & Hd & H). split.
      * destruct (snd (resume h (fst c))); destruct H as (H & _).
        -- exists []. now rewrite app_nil_r.
        -- eexists. exact H.
      * exists []. now rewrite app_nil_r.
Qed.

Lemma run_grows (schedule : list Action) : forall c,
  (exists l, disposables (fst (run schedule c)) = disposables (fst c) ++ l) /\
  (exists k, disposed (fst (run schedule c)) = disposed (fst c) ++ k).
Proof.
  induction schedule as [|a schedule IH]; intros c.
  - split; exists []; now rewrite app_nil_r.
  - destruct (IH (step a c)) as [[l Hl] [k Hk]].
    destruct (step_grows a c) as [[l0 Hl0] [k0 Hk0]].
    change (run (a :: schedule) c) with (run schedule (step a c)).
    split; eexists; [rewrite Hl, Hl0|rewrite Hk, Hk0]; now rewrite <- app_assoc.
Qed.

Lemma step_held (a : Action) (c : Config) :
  held_are_disposable c -> held_are_disposable (step a c).
Proof.
  unfold held_are_disposable. intros Hc. destruct a as [wp|i].
  - rewrite step_folder_event. cbn [fst snd]. intros Hq p.
    apply app_eq_nil in Hq. destruct Hq as [Hq Hnone].
    destruct (start_state wp (fst c)) as (_ & _ & H).
    destruct wp as [[|w ws]|]; destruct H as (Hp & Hd & _ & Hh);
      rewrite Hh in Hnone; try discriminate Hnone; rewrite Hp, Hd.
    + intros [].
    + now apply Hc.
  - simpl. destruct (resume_at_cases (snd c) i (fst c))
      as [Hsame|(before & h & after & Hhs & Hres)].
    + rewrite Hsame. exact Hc.
    + rewrite Hres. cbn [fst snd]. intros Hq p.
      apply app_eq_nil in Hq. destruct Hq as [_ Hq].
      destruct (resume_state h (fst c)) as (Hp & _ & _ & H).
      destruct (snd (resume h (fst c))); [discriminate Hq|].
      destruct H as (Hd & _). rewrite Hp, Hd. intros Hin.
      apply in_or_app. right. now apply in_map.
Qed.

Lemma run_held (schedule : list Action) : forall c,
  held_are_disposable c -> held_are_disposable (run schedule c).
Proof.
  induction schedule as [|a schedule IH]; intros c Hc; [assumption|].
  apply (IH (step a c)). now apply step_held.
Qed.

Lemma initial_held workspaces next :
  held_are_disposable (asyncInitialize workspaces next, []).
Proof.
  intros _ p. cbn [fst]. destruct workspaces as [ws|].
  - rewrite asyncInitialize_defined. simpl. intros Hin. do 2 right. now apply in_map.
  - intros [].
Qed.

Lemma step_view (a : Action) (c : Config) :
  Permutation (folders_view (step a c)) (folders_view c ++ defined_lists (events_of [a])).
Proof.
  unfold folders_view. destruct a as [wp|i].
  - rewrite step_folder_event. cbn [fst snd].
    destruct (start_state wp (fst c)) as (_ & _ & H).
    destruct wp as [[|w ws]|]; destruct H as (_ & _ & Hf & Hh); rewrite Hf, Hh; simpl.
    + rewrite app_nil_r, map_app, <- !app_assoc.
      apply Permutation_app_head. simpl. apply Permutation_cons_append.
    + rewrite map_app, app_assoc. reflexivity.
    + now rewrite !app_nil_r.
  - simpl. rewrite app_nil_r.
    destruct (resume_at_cases (snd c) i (fst c))
      as [Hsame|(before & h & after & Hhs & Hres)].
    + now rewrite Hsame.
    + rewrite Hres, Hhs. cbn [fst snd].
      destruct (resume_state h (fst c)) as (_ & _ & _ & H).
      destruct (snd (resume h (fst c))) as [h'|].
      * destruct H as (_ & Hf & Hpairs & Hrest). rewrite Hf, !map_app. simpl.
        replace (handler_folders h') with (handler_folders h); [reflexivity|].
        unfold handler_folders. rewrite Hpairs, Hrest, map_app, <- app_assoc. reflexivity.
      * destruct H as (_ & Hf & Hrest). rewrite Hf, !map_app. simpl.
        replace (handler_folders h)
          with (map pair_workspace
                  (handler_pairArr h
                   ++ [pair_of {| pref_ref := next_ref (fst c); workspace := pending h |}])).
        -- rewrite <- !app_assoc. apply Permutation_app_head. simpl.
           apply Permutation_middle.
        -- unfold handler_folders. rewrite Hrest, map_app. reflexivity.
Qed.

Lemma run_view (schedule : list Action) : forall c,
  Permutation (folders_view (run schedule c))
    (folders_view c ++ defined_lists (events_of schedule)).
Proof.
  induction schedule as [|a schedule IH]; intros c.
  - simpl. now rewrite app_nil_r.
  - change (run (a :: schedule) c) with (run schedule (step a c)).
    rewrite IH, step_view, <- app_assoc.
    apply Permutation_app_head.
    change (a :: schedule) with ([a] ++ schedule).
    unfold events_of, defined_lists. now rewrite !flat_map_app.
Qed.

Lemma step_pairs (a : Action) (c : Config) :
  pairs_consistent c -> pairs_consistent (step a c).
Proof.
  intros [Hf Hh]. destruct a as [wp|i].
  - rewrite step_folder_event. unfold pairs_consistent. cbn [fst snd].
    destruct (start_state wp (fst c)) as (_ & _ & H).
    destruct wp as [[|w ws]|]; destruct H as (_ & _ & Hfired & Hnew);
      rewrite Hfired, Hnew; split.
    + intros pairArr pair Hin. apply in_app_or in Hin.
      destruct Hin as [Hin|[<-|[]]]; [now apply Hf|intros []].
    + intros h pair. rewrite app_nil_r. apply Hh.
    + exact Hf.
    + intros h pair Hin. apply in_app_or in Hin.
      destruct Hin as [Hin|[<-|[]]]; [now apply Hh|intros []].
    + exact Hf.
    + intros h pair. rewrite app_nil_r. apply Hh.
  - simpl. destruct (resume_at_cases (snd c) i (fst c))
      as [Hsame|(before & h & after & Hhs & Hres)].
    + rewrite Hsame. now split.
    + rewrite Hres. unfold pairs_consistent. cbn [fst snd].
      assert (Hnew : forall pair,
                In pair (handler_pairArr h
                         ++ [pair_of {| pref_ref := next_ref (fst c);
                                        workspace := pending h |}]) ->
                workspace (preference pair) = pair_workspace pair).
      { intros pair Hin. apply in_app_or in Hin. destruct Hin as [Hin|[<-|[]]].
        - apply (Hh h); [rewrite Hhs; apply in_or_app; right; now left|assumption].
        - reflexivity. }
      assert (Hold : forall h0, In h0 before \/ In h0 after -> In h0 (snd c)).
      { intros h0 Hin. rewrite Hhs. apply in_or_app.
        destruct Hin; [now left|right; now right]. }
      destruct (resume_state h (fst c)) as (_ & _ & _ & H).
      destruct (snd (resume h (fst c))) as [h'|].
      * destruct H as (_ & Hfired & Hpairs & _). rewrite Hfired. split; [exact Hf|].
        intros h0 pair Hin. apply in_app_or in Hin.
        destruct Hin as [Hin|[<-|Hin]].
        -- apply Hh, Hold. now left.
        -- rewrite Hpairs. apply Hnew.
        -- apply Hh, Hold. now right.
      * destruct H as (_ & Hfired & _). rewrite Hfired. split.
        -- intros pairArr pair Hin. apply in_app_or in Hin.
           destruct Hin as [Hin|[<-|[]]]; [now apply Hf|apply Hnew].
        -- intros h0 pair Hin. apply Hh, Hold. now apply in_app_or.
Qed.

Lemma run_pairs (schedule : list Action) : forall c,
  pairs_consistent c -> pairs_consistent (run schedule c).
Proof.
  induction schedule as [|a schedule IH]; intros c Hc; [assumption|].
  apply (IH (step a c)). now apply step_pairs.
Qed.

Lemma initial_fired workspaces next : fired (asyncInitialize workspaces next) = [].
Proof.
  unfold asyncInitialize.
  destruct workspaces as [ws|]; [rewrite fold_create_step|]; reflexivity.
Qed.

End StepInvariants.

Section OverlappingCallbacks.
Import PreferencesAPI.

(** X2. Whatever the order in which folder events arrive and suspended
    callbacks resume, once no callback is suspended the change events
    fired since the creation of the registry carry, up to their order,
    exactly the defined folder lists of the events received: one change
    event per folder event with a defined list, none for the creation
    and for events with an undefined list. In every pair fired at any
    time, the store is one created for the folder of the pair. When
    every callback runs to its end before the next folder event
    arrives, the change events follow the order of the folder events. *)
Theorem fired_events_replay_folder_lists
  (workspaces : option (list WorkspaceFolder)) (next : nat)
  (schedule : list Action) (events : list (option (list WorkspaceFolder))) :
  let c := run schedule (asyncInitialize workspaces next, []) in
  (snd c = [] ->
   Permutation (map (map pair_workspace) (fired (fst c)))
     (defined_lists (events_of schedule))) /\
  (forall pairArr pair,
     In pairArr (fired (fst c)) -> In pair pairArr ->
     workspace (preference pair) = pair_workspace pair) /\
  map (map pair_workspace)
      (fired (fst (run (serial_schedule events) (asyncInitialize workspaces next, []))))
  = defined_lists events.
Proof.
  intros c. split; [|split].
  - intros Hquiet.
    pose proof (run_view schedule (asyncInitialize workspaces next, [])) as H.
    fold c in H. unfold folders_view in H. rewrite Hquiet in H. cbn [fst snd map] in H.
    rewrite initial_fired, app_nil_r in H. exact H.
  - apply (run_pairs schedule (asyncInitialize workspaces next, [])).
    split; cbn [fst snd]; [rewrite initial_fired|]; intros ? ? [].
  - rewrite after_events_serial. cbn [fst]. unfold after_events.
    fold (handle_all events (asyncInitialize workspaces next)).
    now rewrite fired_handle_all, initial_fired.
Qed.

Lemma fired_events_replay_folder_lists_witness :
  Permutation
    (map (map pair_workspace)
       (fired (fst (run [FolderEvent (Some [folder_r; folder_q]); FolderEvent (Some [folder_q]);
                         CreateResolved 1; CreateResolved 0; CreateResolved 0]
                        (asyncInitialize (Some [folder_r]) 0, [])))))
    [[folder_r; folder_q]; [folder_q]].
Proof.
  apply (proj1 (fired_events_replay_folder_lists (Some [folder_r]) 0
                  [FolderEvent (Some [folder_r; folder_q]); FolderEvent (Some [folder_q]);
                   CreateResolved 1; CreateResolved 0; CreateResolved 0] [])).
  reflexivity.
Defined.

(** X3. Whatever the order in which folder events arrive and suspended
    callbacks resume, once no callback is suspended every store held is
    among the disposables, so that [dispose()] of the registry sends it
    [dispose()]; [dispose()] does not change the sequence held. When
    every callback runs to its end before the next folder event
    arrives, [dispose()] reaches every store created since the creation
    of the registry, once each and in the order of their creation:
    nothing is removed from the disposables. *)
Theorem dispose_reaches_every_store_created
  (workspaces : option (list WorkspaceFolder)) (next : nat)
  (schedule : list Action) (events : list (option (list WorkspaceFolder))) :
  let c := run schedule (asyncInitialize workspaces next, []) in
  let s := fst (run (serial_schedule events) (asyncInitialize workspaces next, [])) in
  (snd c = [] ->
   forall p, In p (preferences (fst c)) ->
     exists before after,
       disposed (dispose (fst c)) = disposed (fst c) ++ before ++ pref_ref p :: after) /\
  preferences (dispose (fst c)) = preferences (fst c) /\
  disposed (dispose s) = disposed s ++ seq next (next_ref s - next).
Proof.
  intros c s. split; [|split].
  - intros Hquiet p Hin.
    assert (Hd : In (DStore p) (disposables (fst c))).
    { apply (run_held schedule (asyncInitialize workspaces next, [])); try assumption.
      apply initial_held. }
    assert (Href : In (pref_ref p)
                     (flat_map (fun d => match d with DStore p => [pref_ref p] | _ => [] end)
                        (disposables (fst c)))).
    { apply in_flat_map. exists (DStore p). split; [assumption|now left]. }
    apply in_split in Href. destruct Href as (before & after & Href).
    exists before, after. unfold dispose. cbn [disposed]. now rewrite Href.
  - reflexivity.
  - subst s. rewrite after_events_serial. cbn [fst].
    unfold dispose. cbn [disposed]. f_equal. apply disposables_reachable.
Qed.

Lemma dispose_reaches_every_store_created_witness :
  let c := run [FolderEvent (Some [folder_r; folder_q]); FolderEvent (Some [folder_q]);
                CreateResolved 1; CreateResolved 0; CreateResolved 0]
               (asyncInitialize (Some [folder_r]) 0, []) in
  exists before after,
    disposed (dispose (fst c)) = disposed (fst c) ++ before ++ 1 :: after.
Proof.
  intros c.
  pose proof (dispose_reaches_every_store_created (Some [folder_r]) 0
                [FolderEvent (Some [folder_r; folder_q]); FolderEvent (Some [folder_q]);
                 CreateResolved 1; CreateResolved 0; CreateResolved 0] []) as H.
  cbv zeta in H. destruct H as (H & _).
  apply (H eq_refl {| pref_ref := 1; workspace := folder_q |}).
  left. reflexivity.
Defined.

(** X4. A store held while no callback is suspended is among the
    disposables; when a folder event then arrives, the store receives
    [dispose()] from the callback of that event and, whatever happens
    afterwards, once more from [dispose()] of the registry. *)
Theorem replaced_store_disposed_twice
  (workspaces : option (list WorkspaceFolder)) (next : nat)
  (schedule later : list Action)
  (wp : option (list WorkspaceFolder)) (p : Preferences) :
  let c := run schedule (asyncInitialize workspaces next, []) in
  snd c = [] ->
  In p (preferences (fst c)) ->
  2 <= count_occ Nat.eq_dec
         (disposed (dispose (fst (run (FolderEvent wp :: later) c)))) (pref_ref p).
Proof.
  intros c Hquiet Hin.
  assert (Hd : In (DStore p) (disposables (fst c))).
  { apply (run_held schedule (asyncInitialize workspaces next, [])); try assumption.
    apply initial_held. }
  change (run (FolderEvent wp :: later) c) with (run later (step (FolderEvent wp) c)).
  destruct (run_grows later (step (FolderEvent wp) c)) as [[l Hl] [k Hk]].
  destruct (step_grows (FolderEvent wp) c) as [[l0 Hl0] _].
  assert (Hstart : disposed (fst (step (FolderEvent wp) c))
                   = disposed (fst c) ++ map pref_ref (preferences (fst c))).
  { rewrite step_folder_event. cbn [fst]. apply start_state. }
  unfold dispose. cbn [disposed]. rewrite Hk, Hstart, Hl, Hl0.
  rewrite !count_occ_app, !flat_map_app, !count_occ_app.
  assert (H1 : 1 <= count_occ Nat.eq_dec (map pref_ref (preferences (fst c))) (pref_ref p)).
  { apply count_occ_In. now apply in_map. }
  assert (H2 : 1 <= count_occ Nat.eq_dec
                      (flat_map (fun d => match d with DStore p => [pref_ref p] | _ => [] end)
                         (disposables (fst c)))
                      (pref_ref p)).
  { apply count_occ_In, in_flat_map. exists (DStore p). split; [assumption|now left]. }
  lia.
Qed.

Lemma replaced_store_disposed_twice_witness :
  let c := run [FolderEvent (Some [folder_r; folder_q]); FolderEvent (Some [folder_q]);
                CreateResolved 1; CreateResolved 0; CreateResolved 0]
               (asyncInitialize (Some [folder_r]) 0, []) in
  2 <= count_occ Nat.eq_dec
         (disposed (dispose (fst (run [FolderEvent None; FolderEvent (Some [folder_r]);
                                       CreateResolved 0] c))))
         1.
Proof.
  intros c.
  apply (replaced_store_disposed_twice (Some [folder_r]) 0
           [FolderEvent (Some [folder_r; folder_q]); FolderEvent (Some [folder_q]);
            CreateResolved 1; CreateResolved 0; CreateResolved 0]
           [FolderEvent (Some [folder_r]); CreateResolved 0]
           None {| pref_ref := 1; workspace := folder_q |}).
  - reflexivity.
  - left. reflexivity.
Defined.

End OverlappingCallbacks.

(** ** Further properties of the runs of the deployers *)

(** X7. Every variant calls the build runner exactly once, before anything
    else, with the command of the variant, in the directory of the
    workspace and with the online flag of its preferences. *)
Theorem build_runner_called_once_first {host : Host}
  (d : ICodeDeployer) (t : number) (w : WorkspaceFolder) :
  exists rest,
    trace (ICodeDeployer_runDeployer d t w)
    = GradleRun (build_command d t) (fsPath (uri w)) w (getOnline (getPreferences w))
        (gradleRun (build_command d t) (fsPath (uri w)) w (getOnline (getPreferences w)))
        :: rest /\
    forall e, In e rest -> is_GradleRun e = false.
Proof.
  destruct d; unfold ICodeDeployer_runDeployer, build_command; run_cases;
    eexists; (split; [reflexivity|none_in_trace]).
Qed.

Lemma build_runner_called_once_first_witness :
  let host := scripted_host false 0 true frc_artifacts frc_command [] (Some 0) None false in
  exists rest,
    trace (DebugCodeDeployer.runDeployer (host := host) 900%Z folder_r)
    = GradleRun "deploy -PdebugMode -PteamNumber=900" "/r" folder_r true 0 :: rest /\
    forall e, In e rest -> is_GradleRun e = false.
Proof.
  intros host.
  exact (build_runner_called_once_first (host := host) NewDebugCodeDeployer 900%Z folder_r).
Defined.

(** X8. A non-zero exit code of the build ends the run of the debug and of
    the simulate variant at once: the run returns [false] and the build
    is its only call (no file is read, no picker shown, no launcher
    invoked). *)
Theorem build_failure_short_circuits {host : Host}
  (d : ICodeDeployer) (t : number) (w : WorkspaceFolder) :
  let exitCode :=
    gradleRun (build_command d t) (fsPath (uri w)) w (getOnline (getPreferences w)) in
  exitCode <> 0%Z ->
  ICodeDeployer_runDeployer d t w
  = ([GradleRun (build_command d t) (fsPath (uri w)) w (getOnline (getPreferences w)) exitCode],
     Returned false).
Proof.
  intros exitCode Hexit. subst exitCode.
  destruct d; unfold ICodeDeployer_runDeployer, build_command in *; unfold_run;
    match goal with
    | |- context [negb (?x =? 0)%Z] => destruct (Z.eqb_spec x 0) as [Heq|Hne]
    end; try contradiction; reflexivity.
Qed.

Lemma build_failure_short_circuits_witness :
  let host := scripted_host false 1 true frc_artifacts frc_command [frc_command]
                None None false in
  DebugCodeDeployer.runDeployer (host := host) 900%Z folder_r
  = ([GradleRun "deploy -PdebugMode -PteamNumber=900" "/r" folder_r true 1], Returned false).
Proof.
  intros host.
  apply (build_failure_short_circuits (host := host) NewDebugCodeDeployer 900%Z folder_r).
  discriminate.
Defined.

(** X10. A rejected file read is the last call of a run: the run throws the
    read error, and no launcher has been invoked. Conversely a run only
    throws a read error after a rejected read. *)
Theorem read_failure_ends_run {host : Host}
  (d : ICodeDeployer) (t : number) (w : WorkspaceFolder) :
  (forall path,
     In (ReadFile path None) (trace (ICodeDeployer_runDeployer d t w)) ->
     outcome (ICodeDeployer_runDeployer d t w) = Thrown ReadError /\
     exists before,
       trace (ICodeDeployer_runDeployer d t w) = before ++ [ReadFile path None] /\
       forall e, In e before -> is_launcher e = false) /\
  (outcome (ICodeDeployer_runDeployer d t w) = Thrown ReadError ->
   exists path, In (ReadFile path None) (trace (ICodeDeployer_runDeployer d t w))).
Proof.
  split.
  - intros path.
    destruct d; unfold ICodeDeployer_runDeployer; run_cases; intros H; in_trace H.
    all: injection H as <-.
    all: split; [reflexivity|].
    all: split_last; (split; [reflexivity|none_in_trace]).
  - destruct d; unfold ICodeDeployer_runDeployer; run_cases; intros H; try discriminate H.
    all: eexists; cbn [In]; repeat (first [left; reflexivity | right]).
Qed.

Lemma read_failure_ends_run_witness :
  let host :=
    {| number := Z; Number_toString := Z_toString; path_join := join_plain;
       path_dirname := posix_dirname; path_basename := posix_basename;
       path_delimiter := ":"; getIsWindows := false;
       getPreferences := fun _ =>
         {| getCurrentLanguage := "cpp"; getOnline := true;
            getStopSimulationOnEntry := false |};
       gradleRun := fun _ _ _ _ => 0%Z;
       readFileAsync := fun _ => None;
       jsonc_parse_debuginfo := fun _ => [];
       jsonc_parse_debugcommand := fun _ => frc_command;
       jsonc_parse_desktopinfo := fun _ => [];
       showQuickPick_artifact := fun _ => None;
       showQuickPick_target := fun _ => None;
       showQuickPick_extensions := fun _ => None |} in
  outcome (SimulateCodeDeployer.runDeployer (host := host) 900%Z folder_r) = Thrown ReadError.
Proof.
  intros host.
  apply (proj1 (read_failure_ends_run (host := host) NewSimulateCodeDeployer 900%Z folder_r)
           "/r/build/debug/desktopinfo.json").
  right. left. reflexivity.
Defined.

(** X11. A run of the debug or of the simulate variant that returns [true]
    has invoked exactly one launcher, after every read and every picker,
    and nothing but the log of the exit code follows that call; a run
    that ends in any other way has invoked no launcher. *)
Theorem success_iff_launched {host : Host}
  (d : ICodeDeployer) (t : number) (w : WorkspaceFolder) :
  d <> NewDeployCodeDeployer ->
  (outcome (ICodeDeployer_runDeployer d t w) = Returned true ->
   exists before e after,
     trace (ICodeDeployer_runDeployer d t w) = before ++ e :: after /\
     is_launcher e = true /\
     (forall x, In x before -> is_launcher x = false) /\
     (forall x, In x after -> is_ConsoleLog x = true)) /\
  (outcome (ICodeDeployer_runDeployer d t w) <> Returned true ->
   forall x, In x (trace (ICodeDeployer_runDeployer d t w)) -> is_launcher x = false).
Proof.
  intros Hd. destruct d; try contradiction; unfold ICodeDeployer_runDeployer.
  - run_cases; (split; [intros H; try discriminate H | intros H; try none_in_trace]);
      try (exfalso; apply H; reflexivity).
    all: match goal with
         | |- exists b e a, ?l = _ /\ _ =>
             exists (removelast (removelast l)), (last (removelast l) (ConsoleLog 0)),
                    [last l (ConsoleLog 0)]
         end; cbn [removelast last app].
    all: repeat split; none_in_trace.
  - run_cases; (split; [intros H; try discriminate H | intros H; try none_in_trace]);
      try (exfalso; apply H; reflexivity).
    all: match goal with
         | |- exists b e a, ?l = _ /\ _ =>
             exists (removelast l), (last l (ConsoleLog 0)), []
         end; cbn [removelast last app].
    all: repeat split; none_in_trace.
Qed.

Lemma success_iff_launched_witness :
  let host := scripted_host true 0 true [] frc_command [frc_command] None None true in
  exists before e after,
    trace (SimulateCodeDeployer.runDeployer (host := host) 900%Z folder_r)
    = before ++ e :: after /\ is_launcher e = true.
Proof.
  intros host.
  destruct (success_iff_launched (host := host) NewSimulateCodeDeployer 900%Z folder_r)
    as [H _]; [discriminate|].
  destruct (H eq_refl) as (before & e & after & Htrace & Hl & _).
  exists before, e, after. split; [exact Htrace | exact Hl].
Defined.

(** X12. The artifact picker of the debug variant and the target picker of
    the simulate variant are only shown for two entries or more, and
    show the [artifact] fields (the [name] fields for simulation
    targets) of the parsed index, in order. *)
Theorem artifact_picker_labels {host : Host} (t : number) (w : WorkspaceFolder)
  (labels : list (option string)) (answer : option (list (option string))) :
  (In (ShowQuickPick labels "Select an artifact" false answer)
      (trace (DebugCodeDeployer.runDeployer t w)) ->
   exists text,
     readFileAsync (path_join [fsPath (uri w); "build"; "debug"; "debuginfo.json"])
     = Some text /\
     labels = map (fun i => Some (artifact i)) (jsonc_parse_debuginfo text) /\
     2 <= List.length labels) /\
  (In (ShowQuickPick labels "Select an artifact" false answer)
      (trace (SimulateCodeDeployer.runDeployer t w)) ->
   exists text,
     readFileAsync (path_join [fsPath (uri w); "build"; "debug"; "desktopinfo.json"])
     = Some text /\
     labels = map name (jsonc_parse_desktopinfo text) /\
     2 <= List.length labels).
Proof.
  split; run_cases; intros H; in_trace H.
  all: injection H as <- _.
  all: eexists; split; [reflexivity|].
  all: rewrite map_map; split; [reflexivity|].
  all: rewrite length_map.
  all: match goal with
       | Hlen : (1 <? _)%nat = true |- _ => apply Nat.ltb_lt in Hlen; exact Hlen
       end.
Qed.

Lemma artifact_picker_labels_witness :
  let host := scripted_host false 0 true frc_artifacts frc_command [] (Some 0) None false in
  2 <= List.length [Some "frcUserProgram"; Some "vision"].
Proof.
  intros host.
  destruct (proj1 (artifact_picker_labels (host := host) 900%Z folder_r
                     [Some "frcUserProgram"; Some "vision"] (Some [Some "frcUserProgram"])))
    as (text & _ & _ & Hlen).
  - right. right. left. reflexivity.
  - exact Hlen.
Defined.

(** X13. The only message a run shows is "Artifact cancelled"; it is shown
    exactly when the artifact (or target) picker is dismissed, as the
    last call of the run, which then returns [false] without having
    invoked a launcher or, in the simulate variant, shown the extensions
    picker. *)
Theorem artifact_cancelled_message {host : Host}
  (d : ICodeDeployer) (t : number) (w : WorkspaceFolder) :
  (forall message,
     In (ShowInformationMessage message) (trace (ICodeDeployer_runDeployer d t w)) ->
     message = "Artifact cancelled" /\
     exists labels,
       In (ShowQuickPick labels "Select an artifact" false None)
          (trace (ICodeDeployer_runDeployer d t w))) /\
  (forall labels,
     In (ShowQuickPick labels "Select an artifact" false None)
        (trace (ICodeDeployer_runDeployer d t w)) ->
     outcome (ICodeDeployer_runDeployer d t w) = Returned false /\
     exists before,
       trace (ICodeDeployer_runDeployer d t w)
       = before ++ [ShowInformationMessage "Artifact cancelled"] /\
       (forall e, In e before -> is_launcher e = false) /\
       (forall e, In e before -> e = ShowQuickPick labels "Select an artifact" false None \/
                                 is_ShowQuickPick e = false)).
Proof.
  split.
  - intros message.
    destruct d; unfold ICodeDeployer_runDeployer; run_cases; intros H; in_trace H.
    all: injection H as <-.
    all: split; [reflexivity|].
    all: eexists; cbn [In]; do 2 right; left; reflexivity.
  - intros labels.
    destruct d; unfold ICodeDeployer_runDeployer; run_cases; intros H; in_trace H.
    all: injection H as <-.
    all: split; [reflexivity|].
    all: split_last; split; [reflexivity|].
    all: split; [none_in_trace|].
    all: intros e He; cbn [In] in He.
    all: repeat (destruct He as [<-|He]; [first [right; reflexivity | left; reflexivity]|]).
    all: contradiction.
Qed.

Lemma artifact_cancelled_message_witness :
  let host := scripted_host false 0 true [] frc_command [frc_command; frc_command]
                None None true in
  outcome (SimulateCodeDeployer.runDeployer (host := host) 900%Z folder_r) = Returned false.
Proof.
  intros host.
  apply (proj2 (artifact_cancelled_message (host := host) NewSimulateCodeDeployer
                  900%Z folder_r)
           [Some "frcUserProgram"; Some "frcUserProgram"]).
  right. right. left. reflexivity.
Defined.

Lemma Set_of_NoDup (l : list string) : NoDup (Set_of l).
Proof. apply (Set_fold_spec l [] (NoDup_nil _)). Qed.

Lemma Set_of_In (l : list string) (x : string) : In x (Set_of l) <-> In x l.
Proof.
  destruct (Set_fold_spec l [] (NoDup_nil _)) as [_ H].
  unfold Set_of. rewrite H. simpl. tauto.
Qed.



Lemma extensions_loop {host : Host} (quickPick : list ExtensionItem) : forall acc,
  fold_left (fun acc qp => ((acc ++ ext_path qp) ++ path_delimiter)%string) quickPick acc
  = (acc ++ String.concat ""
              (map (fun qp => (ext_path qp ++ path_delimiter)%string) quickPick))%string.
Proof.
  induction quickPick as [|qp l IH]; intros acc; simpl.
  - now rewrite append_nil_r.
  - rewrite IH. destruct l as [|qp' l]; simpl.
    + now rewrite append_nil_r, append_assoc.
    + now rewrite !append_assoc.
Qed.

(** X15. The extensions string of the simulate variant: when the chosen
    target lists extensions and the picker is answered, the run shows
    the base names of the listed extensions and hands the launcher of
    the platform the picked paths, each one followed by the path
    delimiter (the last one included: nothing is trimmed). *)
Theorem simulate_extensions_string {host : Host} (w : WorkspaceFolder)
  (targetSimulateInfo : ICppDebugCommand) (targetExtensions : list string)
  (quickPick : list ExtensionItem) :
  extensions targetSimulateInfo = Some targetExtensions ->
  targetExtensions <> [] ->
  showQuickPick_extensions
    (map (fun e => {| ext_label := path_basename e; ext_path := e |}) targetExtensions)
  = Some quickPick ->
  exists config,
    SimulateCodeDeployer.launch w (Some targetSimulateInfo)
    = ([ShowQuickPick (map (fun e => Some (path_basename e)) targetExtensions)
          "Pick extensions to run" true
          (Some (map (fun i => Some (ext_label i)) quickPick));
        simulation_launcher config],
       Returned true) /\
    getProperty config "extensions"
    = JString (String.concat ""
                 (map (fun qp => (ext_path qp ++ path_delimiter)%string) quickPick)).
Proof.
  intros Hext Hne Hpick.
  unfold SimulateCodeDeployer.launch, await_showQuickPick_extensions, simulation_launcher,
    call, bind, ret.
  rewrite Hext.
  destruct targetExtensions as [|e0 exts]; [congruence|].
  cbn [List.length Nat.ltb Nat.leb]. rewrite Hpick, map_map. cbn [option_map].
  destruct getIsWindows; cbn [negb fst snd app];
    eexists; (split; [reflexivity|]);
    unfold getProperty; cbn [find fst snd String.eqb Ascii.eqb Bool.eqb];
    rewrite extensions_loop; reflexivity.
Qed.

Lemma simulate_extensions_string_witness :
  let host := scripted_host false 0 true [] frc_command [frc_command] None None true in
  exists config,
    In (simulation_launcher (host := host) config)
       (trace (SimulateCodeDeployer.launch (host := host) folder_r (Some frc_command))) /\
    getProperty config "extensions"
    = JString "/ext/libhalsim_ds.so:/ext/libhalsim_gui.so:".
Proof.
  intros host.
  destruct (simulate_extensions_string (host := host) folder_r frc_command
              ["/ext/libhalsim_ds.so"; "/ext/libhalsim_gui.so"]
              [ {| ext_label := "libhalsim_ds.so"; ext_path := "/ext/libhalsim_ds.so" |};
                {| ext_label := "libhalsim_gui.so"; ext_path := "/ext/libhalsim_gui.so" |} ]
              eq_refl) as (config & Hrun & Hext).
  - discriminate.
  - reflexivity.
  - exists config. split; [rewrite Hrun; right; left; reflexivity | exact Hext].
Defined.

(** X16. Missing data in the simulate variant, after a successful build
    and a readable index. An empty list of simulation targets makes the
    run throw a type error right after the read, before any picker or
    launcher. A target the run goes on with (the only one, or the one
    picked among several, in which case the target picker has been
    shown) that has no [extensions] field makes the run throw a type
    error before the extensions picker and before any launcher. Such a
    target whose list of extensions is empty is launched with the empty
    extensions string, and the extensions picker is not shown. *)
Theorem simulate_missing_data {host : Host} (t : number) (w : WorkspaceFolder)
  (text : string) :
  let parsed := jsonc_parse_desktopinfo text in
  let arr := map (fun i => {| debugInfo := i; label := name i |}) parsed in
  let chosen :=
    if (1 <? List.length parsed)%nat
    then option_map debugInfo (showQuickPick_target arr)
    else nth_error parsed 0 in
  let run := SimulateCodeDeployer.runDeployer t w in
  gradleRun "simulateExternalCpp" (fsPath (uri w)) w (getOnline (getPreferences w)) = 0%Z ->
  readFileAsync (path_join [fsPath (uri w); "build"; "debug"; "desktopinfo.json"])
  = Some text ->
  (parsed = [] ->
   run
   = ([GradleRun "simulateExternalCpp" (fsPath (uri w)) w (getOnline (getPreferences w)) 0;
       ReadFile (path_join [fsPath (uri w); "build"; "debug"; "desktopinfo.json"])
         (Some text)],
      Thrown TypeError)) /\
  (forall target,
     chosen = Some target -> extensions target = None ->
     outcome run = Thrown TypeError /\
     forall e, In e (trace run) -> is_launcher e = false /\ is_extensions_picker e = false) /\
  (forall target,
     chosen = Some target -> extensions target = Some [] ->
     outcome run = Returned true /\
     exists before config,
       trace run = before ++ [simulation_launcher config] /\
       getProperty config "extensions" = JString "" /\
       forall e, In e before -> is_launcher e = false /\ is_extensions_picker e = false).
Proof.
  intros parsed arr chosen run Hexit Hread.
  subst run chosen arr parsed.
  assert (Hrun : SimulateCodeDeployer.runDeployer t w
                 = let parsed := jsonc_parse_desktopinfo text in
                   let (tr, r) :=
                     if (1 <? List.length parsed)%nat then
                       bind (await_showQuickPick_target
                               (map (fun i => {| debugInfo := i; label := name i |}) parsed))
                         (fun picked =>
                            match picked with
                            | None =>
                                bind (call (ShowInformationMessage "Artifact cancelled") tt)
                                  (fun _ => ret false)
                            | Some picked =>
                                SimulateCodeDeployer.launch w (Some (debugInfo picked))
                            end)
                     else SimulateCodeDeployer.launch w (nth_error parsed 0) in
                   (GradleRun "simulateExternalCpp" (fsPath (uri w)) w
                      (getOnline (getPreferences w)) 0
                    :: ReadFile
                         (path_join [fsPath (uri w); "build"; "debug"; "desktopinfo.json"])
                         (Some text)
                    :: tr, r)).
  { unfold SimulateCodeDeployer.runDeployer, await_gradleRun, await_readFileAsync, call.
    rewrite Hexit, Hread. cbn [bind negb Z.eqb].
    destruct (if (1 <? List.length (jsonc_parse_desktopinfo text))%nat then _ else _).
    reflexivity. }
  rewrite Hrun. clear Hrun. cbv zeta.
  split; [|split].
  - intros Hnil. rewrite Hnil. reflexivity.
  - intros target Hchosen Hext.
    destruct (jsonc_parse_desktopinfo text) as [|first [|second rest]];
      cbn [List.length Nat.ltb Nat.leb nth_error map] in *.
    + discriminate Hchosen.
    + injection Hchosen as ->.
      unfold SimulateCodeDeployer.launch. rewrite Hext.
      split; [reflexivity|]. intros e He. cbn [trace fst throw In app] in He.
      repeat (destruct He as [<-|He]; [split; reflexivity|]). contradiction.
    + unfold await_showQuickPick_target, call, bind.
      destruct (showQuickPick_target _) as [picked|]; [|discriminate Hchosen].
      injection Hchosen as <-.
      unfold SimulateCodeDeployer.launch. rewrite Hext.
      split; [reflexivity|]. intros e He. cbn [trace fst throw In app option_map] in He.
      repeat (destruct He as [<-|He]; [split; reflexivity|]). contradiction.
  - intros target Hchosen Hext. unfold simulation_launcher.
    destruct (jsonc_parse_desktopinfo text) as [|first [|second rest]];
      cbn [List.length Nat.ltb Nat.leb nth_error map] in *.
    + discriminate Hchosen.
    + injection Hchosen as ->.
      unfold SimulateCodeDeployer.launch, call, bind, ret. rewrite Hext.
      cbn [List.length Nat.ltb Nat.leb].
      destruct getIsWindows; cbn [negb fst snd app outcome trace];
        (split; [reflexivity|]); split_last; eexists; (split; [reflexivity|]);
        (split; [reflexivity|]); intros e He; cbn [In] in He;
        repeat (destruct He as [<-|He]; [split; reflexivity|]); contradiction.
    + unfold await_showQuickPick_target, call, bind.
      destruct (showQuickPick_target _) as [picked|]; [|discriminate Hchosen].
      injection Hchosen as <-.
      unfold SimulateCodeDeployer.launch, call, bind, ret. rewrite Hext.
      cbn [List.length Nat.ltb Nat.leb option_map].
      destruct getIsWindows; cbn [negb fst snd app outcome trace];
        (split; [reflexivity|]); split_last; eexists; (split; [reflexivity|]);
        (split; [reflexivity|]); intros e He; cbn [In] in He;
        repeat (destruct He as [<-|He]; [split; reflexivity|]); contradiction.
Qed.

(** Two simulation targets, the second one picked, and no [extensions]
    field in it: the target picker is shown, and then the run throws. *)
Lemma simulate_missing_data_witness :
  let bare :=
    {| name := Some "bare"; extensions := None; clang := None;
       launchfile := "/r/build/bare"; target := ""; gdb := ""; sysroot := None;
       srcpaths := []; headerpaths := []; sofiles := []; libsrcpaths := [] |} in
  let host := scripted_host false 0 true [] frc_command [frc_command; bare]
                None (Some 1) true in
  SimulateCodeDeployer.runDeployer (host := host) 900%Z folder_r
  = ([GradleRun "simulateExternalCpp" "/r" folder_r true 0;
      ReadFile "/r/build/debug/desktopinfo.json" (Some "/r/build/debug/desktopinfo.json");
      ShowQuickPick [Some "frcUserProgram"; Some "bare"] "Select an artifact" false
        (Some [Some "bare"])],
     Thrown TypeError) /\
  outcome (SimulateCodeDeployer.runDeployer (host := host) 900%Z folder_r) = Thrown TypeError.
Proof.
  intros bare host. split; [reflexivity|].
  pose proof (simulate_missing_data (host := host) 900%Z folder_r
                "/r/build/debug/desktopinfo.json" eq_refl eq_refl) as H.
  cbv zeta in H. destruct H as (_ & H & _).
  apply (H bare); reflexivity.
Defined.

(** ** Further properties of the library search path *)

Lemma Set_fold_fresh (l : list string) : forall acc,
  NoDup l -> (forall x, In x l -> ~ In x acc) -> fold_left Set_add l acc = acc ++ l.
Proof.
  induction l as [|x l IH]; intros acc Hnd Hfresh; simpl.
  - now rewrite app_nil_r.
  - inversion Hnd as [|? ? Hx Hnd']; subst.
    assert (Hadd : Set_add acc x = acc ++ [x]).
    { unfold Set_add. destruct (existsb (String.eqb x) acc) eqn:Hex; [|reflexivity].
      apply existsb_eqb_In in Hex. exfalso. apply (Hfresh x); [now left|assumption]. }
    rewrite Hadd, IH, <- app_assoc; [reflexivity|assumption|].
    intros y Hy Hin. apply in_app_or in Hin. destruct Hin as [Hin|[<-|[]]].
    + apply (Hfresh y); [now right|assumption].
    + contradiction.
Qed.

Lemma Set_fold_known (l : list string) : forall acc,
  incl l acc -> fold_left Set_add l acc = acc.
Proof.
  induction l as [|x l IH]; intros acc Hincl; simpl; [reflexivity|].
  assert (Hadd : Set_add acc x = acc).
  { unfold Set_add. destruct (existsb (String.eqb x) acc) eqn:Hex; [reflexivity|].
    assert (Hin : In x acc) by (apply Hincl; now left).
    apply existsb_eqb_In in Hin. congruence. }
  rewrite Hadd. apply IH. intros y Hy. apply Hincl. now right.
Qed.

(** X18. The search path depends on the distinct listed files only: for a
    list without repeated files it is the list of their directories in
    the listed order, joined by semicolons with none at the end; and
    listing again, at the end, files that are already listed changes
    nothing. *)
Theorem soPath_distinct_files (dirname : string -> string) (sofiles again : list string) :
  (NoDup sofiles -> soPath dirname sofiles = String.concat ";" (map dirname sofiles)) /\
  (incl again sofiles -> soPath dirname (sofiles ++ again) = soPath dirname sofiles).
Proof.
  split.
  - intros Hnd. rewrite soPath_joined. unfold Set_of.
    rewrite Set_fold_fresh; [reflexivity|assumption|]. intros x _ [].
  - intros Hincl. rewrite !soPath_joined. unfold Set_of.
    rewrite fold_left_app. rewrite Set_fold_known; [reflexivity|].
    intros x Hx. apply Set_of_In. now apply Hincl.
Qed.

Lemma soPath_distinct_files_witness :
  soPath posix_dirname ["/b/z.so"; "/a/x.so"] = "/b;/a" /\
  soPath posix_dirname (["/b/z.so"; "/a/x.so"] ++ ["/a/x.so"; "/b/z.so"])
  = soPath posix_dirname ["/b/z.so"; "/a/x.so"].
Proof.
  destruct (soPath_distinct_files posix_dirname ["/b/z.so"; "/a/x.so"] ["/a/x.so"; "/b/z.so"])
    as [Hdistinct Hagain].
  split.
  - rewrite Hdistinct; [reflexivity|].
    repeat constructor; simpl; intuition discriminate.
  - apply Hagain. intros x [<-|[<-|[]]]; simpl; auto.
Defined.

Lemma split_semicolon_entry (a : string) : forall cur rest,
  no_semicolon a = true ->
  split_semicolon_from cur (a ++ String ";" rest)
  = (cur ++ a)%string :: split_semicolon_from "" rest.
Proof.
  induction a as [|c a IH]; intros cur rest Ha; simpl in *.
  - now rewrite append_nil_r.
  - apply andb_prop in Ha. destruct Ha as [Hc Ha].
    apply Bool.negb_true_iff in Hc. rewrite Hc, IH by assumption.
    now rewrite append_assoc.
Qed.

Lemma split_semicolon_last (a : string) : forall cur,
  no_semicolon a = true -> split_semicolon_from cur a = [(cur ++ a)%string].
Proof.
  induction a as [|c a IH]; intros cur Ha; simpl in *.
  - now rewrite append_nil_r.
  - apply andb_prop in Ha. destruct Ha as [Hc Ha].
    apply Bool.negb_true_iff in Hc. rewrite Hc, IH by assumption.
    now rewrite append_assoc.
Qed.

Lemma split_semicolon_joined (l : list string) :
  l <> [] -> (forall a, In a l -> no_semicolon a = true) ->
  split_semicolon (String.concat ";" l) = l.
Proof.
  unfold split_semicolon.
  induction l as [|a l IH]; intros Hne Hall; [congruence|].
  destruct l as [|b l].
  - simpl. apply split_semicolon_last. apply Hall. now left.
  - change (String.concat ";" (a :: b :: l))
      with (a ++ String ";" (String.concat ";" (b :: l)))%string.
    rewrite split_semicolon_entry by (apply Hall; now left).
    rewrite IH; [reflexivity|discriminate|].
    intros x Hx. apply Hall. now right.
Qed.

(** X19. Cut at its semicolons, the search path gives back the directories
    of the distinct listed files, provided no directory name contains a
    semicolon and at least one file is listed; for an empty list the
    path is empty. *)
Theorem soPath_entries (dirname : string -> string) (sofiles : list string) :
  (sofiles = [] -> soPath dirname sofiles = "") /\
  (sofiles <> [] ->
   (forall f, In f sofiles -> no_semicolon (dirname f) = true) ->
   split_semicolon (soPath dirname sofiles) = map dirname (Set_of sofiles)).
Proof.
  split.
  - intros ->. reflexivity.
  - intros Hne Hall. rewrite soPath_joined. apply split_semicolon_joined.
    + destruct sofiles as [|f l]; [congruence|].
      assert (Hin : In f (Set_of (f :: l))) by (apply Set_of_In; now left).
      destruct (Set_of (f :: l)); [contradiction|discriminate].
    + intros a Ha. apply in_map_iff in Ha. destruct Ha as (f & <- & Hf).
      apply Hall. now apply Set_of_In.
Qed.

Lemma soPath_entries_witness :
  split_semicolon (soPath posix_dirname ["/a/x.so"; "/a/y.so"; "/b/z.so"])
  = map posix_dirname (Set_of ["/a/x.so"; "/a/y.so"; "/b/z.so"]).
Proof.
  apply (proj2 (soPath_entries posix_dirname ["/a/x.so"; "/a/y.so"; "/b/z.so"])).
  - discriminate.
  - intros f [<-|[<-|[<-|[]]]]; reflexivity.
Defined.

(** ** Lookups on an empty registry, and the simulate configurations *)

(** X6. A lookup is absent exactly when the registry holds no store: with at
    least one store held, every folder, open or not, gets a store. A
    registry created while the folder list is undefined or empty holds
    none. *)
Theorem lookup_absent_iff_no_store (s : PreferencesAPI.State) (f : WorkspaceFolder)
  (next : nat) :
  (PreferencesAPI.getPreferences s f = None <-> PreferencesAPI.preferences s = []) /\
  PreferencesAPI.getPreferences (PreferencesAPI.asyncInitialize None next) f = None /\
  PreferencesAPI.getPreferences (PreferencesAPI.asyncInitialize (Some []) next) f = None.
Proof.
  repeat split.
  - unfold PreferencesAPI.getPreferences.
    destruct (PreferencesAPI.preferences s) as [|p l]; [reflexivity|].
    destruct (find _ (p :: l)); discriminate.
  - intros Hnil. unfold PreferencesAPI.getPreferences. now rewrite Hnil.
Qed.

Lemma lookup_absent_iff_no_store_witness :
  PreferencesAPI.preferences
    (PreferencesAPI.onDidChangeWorkspaceFolders (Some [])
       (PreferencesAPI.asyncInitialize (Some [folder_r]) 0)) = [].
Proof.
  apply (proj1 (lookup_absent_iff_no_store
                  (PreferencesAPI.onDidChangeWorkspaceFolders (Some [])
                     (PreferencesAPI.asyncInitialize (Some [folder_r]) 0))
                  folder_r 0)).
  reflexivity.
Defined.

(** X9. After a build that exits with zero, the debug and the simulate
    variant read the index file of the variant, under [build/debug] in
    the workspace, before anything else. *)
Theorem build_success_reads_index {host : Host}
  (d : ICodeDeployer) (t : number) (w : WorkspaceFolder) :
  d <> NewDeployCodeDeployer ->
  gradleRun (build_command d t) (fsPath (uri w)) w (getOnline (getPreferences w)) = 0%Z ->
  exists rest,
    trace (ICodeDeployer_runDeployer d t w)
    = GradleRun (build_command d t) (fsPath (uri w)) w (getOnline (getPreferences w)) 0
      :: ReadFile (path_join [fsPath (uri w); "build"; "debug"; index_file d])
           (readFileAsync (path_join [fsPath (uri w); "build"; "debug"; index_file d]))
      :: rest.
Proof.
  intros Hd Hexit.
  destruct d; try contradiction;
    unfold ICodeDeployer_runDeployer, build_command, index_file in *;
    unfold_run; rewrite Hexit; cbn [negb Z.eqb];
    repeat (case_step; cbn [fst snd app negb option_map] in *; try absurd_case);
    eexists; reflexivity.
Qed.

Lemma build_success_reads_index_witness :
  let host := scripted_host false 0 true frc_artifacts frc_command [] (Some 0) None false in
  exists rest,
    trace (DebugCodeDeployer.runDeployer (host := host) 900%Z folder_r)
    = GradleRun "deploy -PdebugMode -PteamNumber=900" "/r" folder_r true 0
      :: ReadFile "/r/build/debug/debuginfo.json" (Some "/r/build/debug/debuginfo.json")
      :: rest.
Proof.
  intros host.
  apply (build_success_reads_index (host := host) NewDebugCodeDeployer 900%Z folder_r).
  - discriminate.
  - reflexivity.
Defined.

(** X17. The configuration the simulate variant hands to its launcher, for
    the target it goes on with: on Windows it has the four properties
    [extensions], [launchfile], [stopAtEntry] and [workspace]; elsewhere
    the seven of the Unix object literal, with the launch file under
    [executablePath] and source paths without repetition. On both,
    [stopAtEntry] is the preference of the workspace and [extensions] is
    a string. *)
Theorem simulate_launch_configuration {host : Host} (w : WorkspaceFolder)
  (target : ICppDebugCommand) (e : Event) :
  In e (trace (SimulateCodeDeployer.launch w (Some target))) ->
  is_launcher e = true ->
  exists config chosen,
    e = simulation_launcher config /\
    getProperty config "stopAtEntry"
    = JBoolean (getStopSimulationOnEntry (getPreferences w)) /\
    getProperty config "workspace" = JFolder w /\
    getProperty config "extensions" = JString chosen /\
    (getIsWindows = true ->
       map fst config = ["extensions"; "launchfile"; "stopAtEntry"; "workspace"] /\
       getProperty config "launchfile" = JString (launchfile target)) /\
    (getIsWindows = false ->
       map fst config
       = ["clang"; "executablePath"; "extensions"; "soLibPath"; "srcPaths"; "stopAtEntry";
          "workspace"] /\
       getProperty config "executablePath" = JString (launchfile target) /\
       getProperty config "srcPaths" = JStringSet (Set_of (srcpaths target)) /\
       NoDup (Set_of (srcpaths target))).
Proof.
  unfold simulation_launcher. run_cases.
  all: intros He Hl; launcher_in_trace He Hl.
  all: do 2 eexists; split; [reflexivity|].
  all: repeat (split; [reflexivity|]).
  all: split; intros Hwin; try discriminate Hwin.
  all: repeat (split; [reflexivity|]); try reflexivity.
  all: apply Set_of_NoDup.
Qed.

Lemma simulate_launch_configuration_witness :
  let host := scripted_host true 0 true [] frc_command [frc_command] None None false in
  exists config,
    map fst config = ["extensions"; "launchfile"; "stopAtEntry"; "workspace"] /\
    getProperty config "launchfile" = JString "/r/build/frcUserProgram".
Proof.
  intros host.
  destruct (simulate_launch_configuration (host := host) folder_r frc_command
              (StartWindowsSimulation
                 [ ("extensions", JString "");
                   ("launchfile", JString "/r/build/frcUserProgram");
                   ("stopAtEntry", JBoolean false);
                   ("workspace", JFolder folder_r) ]))
    as (config & chosen & _ & _ & _ & _ & Hwindows & _).
  - right. left. reflexivity.
  - reflexivity.
  - exists config. apply Hwindows. reflexivity.
Defined.
